(** * Migration of one legacy dashboard alert to a unified-alerting rule

    A shallow embedding of [pkg/services/ngalert/migration/alert_rule.go]
    and the properties of its specification.

    Conventions of the embedding:
    - Go [int64] and [int] values are integers of [Z]; where the source
      computes with them the 64-bit wrap-around is written out ([wrap64]).
    - Go [string]s are byte strings ([string], one [ascii] per byte), so
      [String.length] is Go's [len] and a slice [s[:n]] is a byte prefix.
    - A [json.RawMessage] is modelled by the JSON document its bytes denote
      ([Wellformed]), or by [Malformed] when the bytes are not a JSON text;
      insignificant white space and escape spellings are not represented.
    - A Go map is a [gmap]; the nil map is kept apart ([GoMap]) since it
      marshals differently and panics on assignment.
    - A Go function returning [(T, error)] returns [Result T]; logging,
      calls to collaborators and panics live in the monad [M]. *)

From Stdlib Require Import ZArith Lia Ascii String.
From stdpp Require Import gmap strings list fin_maps pretty sorting.

Set Warnings "-register-all".

Local Open Scope string_scope.
Local Open Scope list_scope.
Local Open Scope Z_scope.

(** ** Machine integers *)

Definition in_int64 (z : Z) : Prop := - 2 ^ 63 <= z < 2 ^ 63.

Definition wrap64 (z : Z) : Z := (z + 2 ^ 63) mod 2 ^ 64 - 2 ^ 63.

(** ** JSON documents and [encoding/json] *)

Module json.

(** A JSON document. Object members keep their order and duplicates, the
    way they are written in the text. A number keeps its literal. *)
Inductive value : Type :=
| JNull
| JBool (b : bool)
| JNumber (lit : string)
| JString (s : string)
| JArray (elems : list value)
| JObject (members : list (string * value)).

(** [json.RawMessage]: raw bytes, told apart by what they denote. *)
Inductive RawMessage : Type :=
| Malformed (text : string)
| Wellformed (doc : value).

(** The name Go reports for the kind of a JSON value in a type error. *)
Definition kind (v : value) : string :=
  match v with
  | JNull => "null"
  | JBool _ => "bool"
  | JNumber _ => "number"
  | JString _ => "string"
  | JArray _ => "array"
  | JObject _ => "object"
  end.

End json.
Export json.

(** ** Errors *)

Inductive error : Type :=
| SyntaxError (text : string)
    (* encoding/json: the bytes are not a JSON text *)
| UnmarshalTypeError (jsonKind goType : string)
    (* encoding/json: a JSON value does not fit the Go type *)
| MarshalerError (text : string)
    (* encoding/json: a RawMessage to encode is not a JSON text *)
| ErrMissingDatasource
    (* "missing datasource field" *)
| ErrParseDatasource (ds : RawMessage) (err : error)
    (* "parse datasource '%s': %w" *)
| ErrMissingType (ds : RawMessage)
    (* "missing type field '%s'" *)
| Wrapped (stage : string) (err : error)
    (* fmt.Errorf("<stage>: %w", err) *)
| External (msg : string).
    (* an error value handed back by a collaborator *)

Inductive Result (A : Type) : Type :=
| Ok (a : A)
| Err (err : error).
Arguments Ok {A} a.
Arguments Err {A} err.

(** ** Go maps of raw messages *)

Inductive GoMap : Type :=
| NilMap
| MkMap (entries : gmap string RawMessage).

(** [v, ok := m[k]] *)
Definition mget (k : string) (m : GoMap) : option RawMessage :=
  match m with
  | NilMap => None
  | MkMap entries => entries !! k
  end.

(** [delete(m, k)]: a no-op on the nil map. *)
Definition mdelete (k : string) (m : GoMap) : GoMap :=
  match m with
  | NilMap => NilMap
  | MkMap entries => MkMap (delete k entries)
  end.

(** [m[k] = v]: [None] stands for the run-time panic
    "assignment to entry in nil map". *)
Definition mset (k : string) (v : RawMessage) (m : GoMap) : option GoMap :=
  match m with
  | NilMap => None
  | MkMap entries => Some (MkMap (<[k := v]> entries))
  end.

(** The key-value mapping a Go map holds (the nil map holds none). *)
Definition entries_of (m : GoMap) : gmap string RawMessage :=
  match m with
  | NilMap => ∅
  | MkMap entries => entries
  end.

Module Import jsondec.

(** ASCII case folding, as used by [encoding/json] to match an object
    key with a struct field when no key matches exactly. *)
Definition fold_ascii (c : ascii) : ascii :=
  let n := N_of_ascii c in
  if ((97 <=? n) && (n <=? 122))%N then ascii_of_N (n - 32) else c.

Fixpoint fold_name (s : string) : string :=
  match s with
  | EmptyString => EmptyString
  | String c s' => String (fold_ascii c) (fold_name s')
  end.

Definition key_matches (key field : string) : bool :=
  bool_decide (key = field) || bool_decide (fold_name key = fold_name field).

(** The decoder walks the members of an object in order and assigns each
    to its key, so a later duplicate overwrites an earlier one. *)
Definition members_to_map (members : list (string * value))
  : gmap string RawMessage :=
  fold_left (fun m kv => <[kv.1 := Wellformed kv.2]> m) members ∅.

(** [json.Unmarshal(data, &m)] for a nil [m map[string]json.RawMessage].
    The literal [null] leaves the map nil and is no error. *)
Definition Unmarshal_map (data : RawMessage) : Result GoMap :=
  match data with
  | Malformed text => Err (SyntaxError text)
  | Wellformed JNull => Ok NilMap
  | Wellformed (JObject members) => Ok (MkMap (members_to_map members))
  | Wellformed v => Err (UnmarshalTypeError (kind v) "map[string]json.RawMessage")
  end.

(** [json.Unmarshal(data, &b)] for [b bool] holding [b0]: the decoded
    value, where [null] leaves [b0] as it is. *)
Definition Unmarshal_bool (data : RawMessage) (b0 : bool) : Result bool :=
  match data with
  | Malformed text => Err (SyntaxError text)
  | Wellformed (JBool b) => Ok b
  | Wellformed JNull => Ok b0
  | Wellformed v => Err (UnmarshalTypeError (kind v) "bool")
  end.

(** Decoding the members of an object into [struct { Type string }]:
    every member whose key matches the field is stored in turn; a value
    of the wrong kind is skipped and the earliest such error is kept. *)
Fixpoint decode_Type (members : list (string * value)) (Type_ : string)
    (saved : option error) : string * option error :=
  match members with
  | [] => (Type_, saved)
  | (key, v) :: rest =>
      if key_matches key "type" then
        match v with
        | JString s => decode_Type rest s saved
        | JNull => decode_Type rest Type_ saved
        | _ =>
            decode_Type rest Type_
              (match saved with
               | Some e => Some e
               | None => Some (UnmarshalTypeError (kind v) "string")
               end)
        end
      else decode_Type rest Type_ saved
  end.

(** [json.Unmarshal(data, &datasource)] for a zero
    [datasource struct { Type string `json:"type"` }]: the value of
    [datasource.Type] afterwards and the error returned. *)
Definition Unmarshal_datasource (data : RawMessage) : string * option error :=
  match data with
  | Malformed text => ("", Some (SyntaxError text))
  | Wellformed JNull => ("", None)
  | Wellformed (JObject members) => decode_Type members "" None
  | Wellformed v =>
      ("", Some (UnmarshalTypeError (kind v) "struct { Type string }"))
  end.

(** Byte-wise order of keys, in which [json.Marshal] writes a map. *)
Definition key_le (kv1 kv2 : string * value) : Prop :=
  String.leb kv1.1 kv2.1 = true.

#[export] Instance key_le_dec : RelDecision key_le.
Proof. intros kv1 kv2. unfold key_le. apply _. Defined.

(** The documents of the entries of a map, or the text of the first one
    that is no JSON text. *)
Fixpoint docs_of (kvs : list (string * RawMessage))
  : Result (list (string * value)) :=
  match kvs with
  | [] => Ok []
  | (k, Wellformed v) :: rest =>
      match docs_of rest with
      | Ok vs => Ok ((k, v) :: vs)
      | Err e => Err e
      end
  | (_, Malformed text) :: _ => Err (MarshalerError text)
  end.

(** [json.Marshal(m)] for [m map[string]json.RawMessage]: [null] for the
    nil map, else an object with the keys sorted; a raw message that is
    no JSON text makes it fail. *)
Definition Marshal_map (m : GoMap) : Result RawMessage :=
  match m with
  | NilMap => Ok (Wellformed JNull)
  | MkMap entries =>
      match docs_of (map_to_list entries) with
      | Ok kvs => Ok (Wellformed (JObject (merge_sort key_le kvs)))
      | Err e => Err e
      end
  end.

End jsondec.

(** ** Data model *)

(** [ngmodels.NoDataState] *)
Inductive NoDataState : Type := Alerting | NoData | OK.

(** [ngmodels.ExecutionErrorState] *)
Inductive ExecutionErrorState : Type := AlertingErrState | ErrorErrState | OkErrState.

(** [ngmodels.AlertQuery] *)
Record AlertQuery : Type := mkAlertQuery {
  RefID : string;
  QueryType : string;
  RelativeTimeRange : Z * Z;
  DatasourceUID : string;
  Model : RawMessage
}.

(** [d.Model = updatedModel] on the loop's copy of a query. *)
Definition with_Model (d : AlertQuery) (updatedModel : RawMessage) : AlertQuery :=
  {| RefID := RefID d;
     QueryType := QueryType d;
     RelativeTimeRange := RelativeTimeRange d;
     DatasourceUID := DatasourceUID d;
     Model := updatedModel |}.

(** A key of the legacy notification settings: an id or a uid. *)
Record notificationKey : Type := mkNotificationKey {
  key_ID : Z;
  key_UID : string
}.

(** [legacymodels.AlertNotification], as far as this file reads it. *)
Record AlertNotification : Type := mkAlertNotification {
  channel_ID : Z;
  channel_UID : string;
  channel_Name : string
}.

(** A legacy tag. *)
Record Tag : Type := mkTag { tag_Key : string; tag_Value : string }.

(** [ngmodels.AlertRule] *)
Record AlertRule : Type := mkAlertRule {
  rule_OrgID : Z;
  rule_Title : string;
  rule_UID : string;
  rule_Condition : string;
  rule_Data : list AlertQuery;
  rule_IntervalSeconds : Z;
  rule_Version : Z;
  rule_NamespaceUID : string;
  rule_DashboardUID : option string;
  rule_PanelID : option Z;
  rule_RuleGroup : string;
  rule_For : Z;
  rule_Updated : Z;
  rule_Annotations : gmap string string;
  rule_Labels : gmap string string;
  rule_RuleGroupIndex : Z;
  rule_IsPaused : bool;
  rule_NoDataState : NoDataState;
  rule_ExecErrState : ExecutionErrorState
}.

(** [ar.Labels[n] = v] *)
Definition with_Label (ar : AlertRule) (n v : string) : AlertRule :=
  {| rule_OrgID := rule_OrgID ar;
     rule_Title := rule_Title ar;
     rule_UID := rule_UID ar;
     rule_Condition := rule_Condition ar;
     rule_Data := rule_Data ar;
     rule_IntervalSeconds := rule_IntervalSeconds ar;
     rule_Version := rule_Version ar;
     rule_NamespaceUID := rule_NamespaceUID ar;
     rule_DashboardUID := rule_DashboardUID ar;
     rule_PanelID := rule_PanelID ar;
     rule_RuleGroup := rule_RuleGroup ar;
     rule_For := rule_For ar;
     rule_Updated := rule_Updated ar;
     rule_Annotations := rule_Annotations ar;
     rule_Labels := <[n := v]> (rule_Labels ar);
     rule_RuleGroupIndex := rule_RuleGroupIndex ar;
     rule_IsPaused := rule_IsPaused ar;
     rule_NoDataState := rule_NoDataState ar;
     rule_ExecErrState := rule_ExecErrState ar |}.

(** [migmodels.DashboardUpgradeInfo] *)
Record DashboardUpgradeInfo : Type := mkDashboardUpgradeInfo {
  DashboardUID : string;
  DashboardName : string;
  NewFolderUID : string
}.

(** ** Effects: the log, the calls for silences, panics *)

Inductive Level : Type := LvlDebug | LvlInfo | LvlWarn | LvlError.

(** A value of the key-value context of a log call. *)
Inductive LogValue : Type :=
| VString (s : string)
| VRaw (raw : RawMessage)
| VError (err : error)
| VNoData (st : NoDataState)
| VExecErr (st : ExecutionErrorState)
| VKey (key : notificationKey).

Inductive SilenceKind : Type := ErrorSilence | NoDataSilence.

(** What a run of this file does that its caller can observe: a message
    handed to the logger, or a call that asks for a silence for a rule. *)
Inductive Event : Type :=
| Logged (lvl : Level) (msg : string) (ctx : list (string * LogValue))
| SilenceRequested (kind : SilenceKind) (ar : AlertRule).

(** The state a run threads through: the state [ext] of the collaborators
    (stores, caches, the title deduplicators, the clock, the random
    source), which only they read and write, and the events so far, the
    latest last. *)
Record World (E : Type) : Type := mkWorld {
  ext : E;
  trace : list Event
}.
Arguments mkWorld {E} ext trace.
Arguments ext {E} w.
Arguments trace {E} w.

Inductive Outcome (A : Type) : Type :=
| Returned (a : A)
| Panicked (msg : string).
Arguments Returned {A} a.
Arguments Panicked {A} msg.

Definition M (E A : Type) : Type := World E -> Outcome A * World E.

Definition ret {E A} (a : A) : M E A := fun w => (Returned a, w).

Definition bind {E A B} (c : M E A) (k : A -> M E B) : M E B :=
  fun w =>
    match c w with
    | (Returned a, w') => k a w'
    | (Panicked msg, w') => (Panicked msg, w')
    end.

Definition panic {E A} (msg : string) : M E A := fun w => (Panicked msg, w).

Definition emit {E} (ev : Event) : M E unit :=
  fun w => (Returned tt, mkWorld (ext w) (trace w ++ [ev])).

(** A collaborator: it returns, and touches only its own state. *)
Definition call {E A} (f : E -> A * E) : M E A :=
  fun w => let '(a, e') := f (ext w) in (Returned a, mkWorld e' (trace w)).

Notation "x <- c ;; k" := (bind c (fun x => k))
  (at level 100, c at next level, right associativity).
Notation "c ;;; k" := (bind c (fun _ => k))
  (at level 100, right associativity).

Definition log_Debug {E} msg ctx : M E unit := emit (Logged LvlDebug msg ctx).
Definition log_Info {E} msg ctx : M E unit := emit (Logged LvlInfo msg ctx).
Definition log_Warn {E} msg ctx : M E unit := emit (Logged LvlWarn msg ctx).
Definition log_Error {E} msg ctx : M E unit := emit (Logged LvlError msg ctx).

(** The silence requests among some events, in the order they were made. *)
Fixpoint silence_requests (evs : list Event) : list (SilenceKind * AlertRule) :=
  match evs with
  | [] => []
  | SilenceRequested kind ar :: evs' => (kind, ar) :: silence_requests evs'
  | Logged _ _ _ :: evs' => silence_requests evs'
  end.

Definition lift {E A} (o : Outcome A) : M E A := fun w => (o, w).

(** ** Constants of other packages *)

(** Modelled from the spec: the legacy no-data option [NoDataSetOK] of
    [legacymodels], spelled out in section 4.1 of the specification. *)
Definition NoDataSetOK : string := "ok".

(** Modelled from the spec: the legacy no-data option [NoDataSetNoData]
    (section 4.1). *)
Definition NoDataSetNoData : string := "no_data".

(** Modelled from the spec: the legacy no-data option [NoDataSetAlerting]
    (section 4.1). *)
Definition NoDataSetAlerting : string := "alerting".

(** Modelled from the spec: the legacy no-data option [NoDataKeepState]
    (section 4.1). *)
Definition NoDataKeepState : string := "keep_state".

(** Modelled from the spec: the legacy execution-error option
    [ExecutionErrorSetOk] (section 4.1). *)
Definition ExecutionErrorSetOk : string := "ok".

(** Modelled from the spec: the legacy execution-error option
    [ExecutionErrorSetAlerting] (section 4.1). *)
Definition ExecutionErrorSetAlerting : string := "alerting".

(** Modelled from the spec: the legacy execution-error option
    [ExecutionErrorKeepState] (section 4.1). *)
Definition ExecutionErrorKeepState : string := "keep_state".

(** Modelled from the spec: the datasource type [datasources.DS_PROMETHEUS],
    which the testable properties of the specification spell out. *)
Definition DS_PROMETHEUS : string := "prometheus".

(** The outcome of the condition translator. *)
Record condition : Type := mkCondition {
  cond_Condition : string;
  cond_OrgID : Z;
  cond_Data : list AlertQuery
}.

(** ** The migration *)

Section Migration.

Set Default Proof Using "Type".

(** The state of the collaborators. *)
Context {E : Type}.

(** The settings document of a legacy alert and its condition entries are
    opaque to this file. *)
Context {Settings dashAlertCondition : Type}.

(** [legacymodels.Alert], as far as this file reads it. *)
Record Alert : Type := mkAlert {
  ID : Z;
  OrgID : Z;
  PanelID : Z;
  Name : string;
  Message : string;
  State : string;
  Frequency : Z;
  For : Z;
  alert_Settings : Settings
}.

(** [dashAlertSettings]: the parsed settings, as far as this file reads
    them. *)
Record dashAlertSettings : Type := mkDashAlertSettings {
  NoDataState_ : string;
  ExecutionErrorState_ : string;
  Conditions : list dashAlertCondition;
  Notifications : list notificationKey
}.

(** Constants declared elsewhere, whose values this file does not fix. *)
Variable expressionDatasourceUID : string.
Variables TargetFullModelField TargetModelField : string.
Variables AlertRuleMaxRuleGroupNameLength AlertDefinitionMaxTitleLength : Z.
Variables DashboardUIDAnnotation PanelIDAnnotation : string.
Variables MigratedAlertIdAnnotation MigratedMessageAnnotation : string.
Variable MigratedUseLegacyChannelsLabel : string.

(** Pure functions declared elsewhere. [Duration_String] is the method
    [String] of [model.Duration], on a duration in nanoseconds. *)
Variable Duration_String : Z -> string.
Variable contactLabel : string -> string.
Variable getLabelForSilenceMatching : string -> string * string.
Variable GetTagsFromSettings : Alert -> list Tag.
Variable json_Marshal_Settings : Settings -> Result RawMessage.
Variable json_Unmarshal_Settings : RawMessage -> Result dashAlertSettings.

(** Collaborators with a state of their own. *)
Variable MigrateTmpl : string -> E -> string * E.
Variable transConditions : dashAlertSettings -> Z -> E -> Result condition * E.
Variable GetChannelByID : Z -> E -> option AlertNotification * E.
Variable GetChannelByUID : string -> E -> option AlertNotification * E.
Variable Deduplicate : string -> string -> E -> Result string * E.
Variable GenerateShortUID : E -> string * E.
Variable time_Now_UTC : E -> Z * E.
Variable createErrorSilence : AlertRule -> E -> option error * E.
Variable createNoDataSilence : AlertRule -> E -> option error * E.

(** *** State translation *)

Definition transNoData (s : string) : M E NoDataState :=
  if decide (s = NoDataSetOK) then ret OK
  else if decide (s = "" \/ s = NoDataSetNoData) then ret NoData
  else if decide (s = NoDataSetAlerting) then ret Alerting
  else if decide (s = NoDataKeepState) then ret NoData
  else
    log_Warn "Unable to translate execution of NoData state. Using default execution"
      [("old", VString s); ("new", VNoData NoData)] ;;;
    ret NoData.

Definition transExecErr (s : string) : M E ExecutionErrorState :=
  if decide (s = "" \/ s = ExecutionErrorSetAlerting) then ret AlertingErrState
  else if decide (s = ExecutionErrorKeepState) then ret ErrorErrState
  else if decide (s = ExecutionErrorSetOk) then ret OkErrState
  else
    log_Warn "Unable to translate execution of Error state. Using default execution"
      [("old", VString s); ("new", VExecErr ErrorErrState)] ;;;
    ret ErrorErrState.

(** *** Interval and group name *)

Definition ruleAdjustInterval (freq : Z) : Z :=
  let baseFreq := 10 in
  if freq <=? baseFreq then 10
  else wrap64 (freq - Z.rem freq baseFreq).

(** [daName[:length]] panics when [length] is negative. *)
Definition truncate (daName : string) (length : Z) : Outcome string :=
  if Z.of_nat (String.length daName) >? length then
    if length <? 0 then Panicked "slice bounds out of range"
    else Returned (substring 0 (Z.to_nat length) daName)
  else Returned daName.

Definition groupName (interval : Z) (dashboardTitle : string) : Outcome string :=
  let duration := wrap64 (interval * 1000000000) in
  let panelSuffix := " - " +:+ Duration_String duration in
  match truncate dashboardTitle
          (AlertRuleMaxRuleGroupNameLength - Z.of_nat (String.length panelSuffix)) with
  | Returned truncatedDashboard => Returned (truncatedDashboard +:+ panelSuffix)
  | Panicked msg => Panicked msg
  end.

(** *** Query repair *)

Definition fixGraphiteReferencedSubQueries (queryData : GoMap) : M E GoMap :=
  match mget TargetFullModelField queryData with
  | Some fullQuery =>
      match mset TargetModelField fullQuery (mdelete TargetFullModelField queryData) with
      | Some queryData' => ret queryData'
      | None => panic "assignment to entry in nil map"
      end
  | None => ret queryData
  end.

Definition isPrometheusQuery (queryData : GoMap) : bool * option error :=
  match mget "datasource" queryData with
  | None => (false, Some ErrMissingDatasource)
  | Some ds =>
      match Unmarshal_datasource ds with
      | (_, Some err) => (false, Some (ErrParseDatasource ds err))
      | (Type_, None) =>
          if decide (Type_ = "") then (false, Some (ErrMissingType ds))
          else (bool_decide (Type_ = DS_PROMETHEUS), None)
      end
  end.

(** The end of [fixPrometheusBothTypeQuery], from the test of the two
    flags on. *)
Definition fixPrometheusBothTypeQuery_convert (queryData : GoMap)
    (instant rng : bool) : M E GoMap :=
  if negb instant || negb rng then ret queryData
  else
    match isPrometheusQuery queryData with
    | (_, Some err) =>
        log_Info "Unable to convert alert rule that resembles a Prometheus 'Both' type query to 'Range'"
          [("err", VError err)] ;;;
        ret queryData
    | (isPrometheus, None) =>
        if negb isPrometheus then ret queryData
        else
          log_Warn "Prometheus 'Both' type queries are not supported in unified alerting. Converting to range query."
            [] ;;;
          match mset "instant" (Wellformed (JBool false)) queryData with
          | Some queryData' => ret queryData'
          | None => panic "assignment to entry in nil map"
          end
    end.

(** The middle of [fixPrometheusBothTypeQuery]: reading the range flag. *)
Definition fixPrometheusBothTypeQuery_range (queryData : GoMap)
    (instant : bool) : M E GoMap :=
  match mget "range" queryData with
  | Some rangeRaw =>
      match Unmarshal_bool rangeRaw false with
      | Err err =>
          (if (isPrometheusQuery queryData).1
           then log_Info "Failed to parse range field on Prometheus query"
                  [("range", VRaw rangeRaw); ("err", VError err)]
           else ret tt) ;;;
          ret queryData
      | Ok rng => fixPrometheusBothTypeQuery_convert queryData instant rng
      end
  | None => fixPrometheusBothTypeQuery_convert queryData instant false
  end.

Definition fixPrometheusBothTypeQuery (queryData : GoMap) : M E GoMap :=
  match mget "instant" queryData with
  | Some instantRaw =>
      match Unmarshal_bool instantRaw false with
      | Err err =>
          (if (isPrometheusQuery queryData).1
           then log_Info "Failed to parse instant field on Prometheus query"
                  [("instant", VRaw instantRaw); ("err", VError err)]
           else ret tt) ;;;
          ret queryData
      | Ok instant => fixPrometheusBothTypeQuery_range queryData instant
      end
  | None => fixPrometheusBothTypeQuery_range queryData false
  end.

(** The loop of [migrateAlertRuleQueries] over the queries left, with the
    queries repaired so far. *)
Fixpoint migrateAlertRuleQueries_loop (data result : list AlertQuery)
    : M E (Result (list AlertQuery)) :=
  match data with
  | [] => ret (Ok result)
  | d :: data' =>
      if decide (DatasourceUID d = expressionDatasourceUID) then
        migrateAlertRuleQueries_loop data' (result ++ [d])
      else
        match Unmarshal_map (Model d) with
        | Err err => ret (Err err)
        | Ok fixedData =>
            let fixedData := mdelete "hide" fixedData in
            fixedData <- fixGraphiteReferencedSubQueries fixedData ;;
            fixedData <- fixPrometheusBothTypeQuery fixedData ;;
            match Marshal_map fixedData with
            | Err err => ret (Err err)
            | Ok updatedModel =>
                migrateAlertRuleQueries_loop data' (result ++ [with_Model d updatedModel])
            end
        end
  end.

Definition migrateAlertRuleQueries (data : list AlertQuery)
    : M E (Result (list AlertQuery)) :=
  migrateAlertRuleQueries_loop data [].

(** *** Labels and annotations *)

Definition addLabelsAndAnnotations (alert : Alert) (dashboardUID : string)
    (channels : list AlertNotification)
    : M E (gmap string string * gmap string string) :=
  let tags := GetTagsFromSettings alert in
  let lbls : gmap string string := ∅ in
  let lbls := fold_left (fun lbls t => <[tag_Key t := tag_Value t]> lbls) tags lbls in
  let lbls := <[MigratedUseLegacyChannelsLabel := "true"]> lbls in
  let lbls :=
    fold_left (fun lbls c => <[contactLabel (channel_Name c) := "true"]> lbls)
      channels lbls in
  let annotations : gmap string string := ∅ in
  let annotations := <[DashboardUIDAnnotation := dashboardUID]> annotations in
  let annotations := <[PanelIDAnnotation := pretty (PanelID alert)]> annotations in
  let annotations := <[MigratedAlertIdAnnotation := pretty (ID alert)]> annotations in
  message <- call (MigrateTmpl (Message alert)) ;;
  let annotations := <[MigratedMessageAnnotation := message]> annotations in
  ret (lbls, annotations).

(** *** Notification channels *)

Fixpoint extractChannels_loop (keys : list notificationKey)
    (channels : list AlertNotification) : M E (list AlertNotification) :=
  match keys with
  | [] => ret channels
  | key :: keys' =>
      byID <- (if 0 <? key_ID key then call (GetChannelByID (key_ID key))
               else ret None) ;;
      match byID with
      | Some c => extractChannels_loop keys' (channels ++ [c])
      | None =>
          byUID <- (if decide (key_UID key <> "")
                    then call (GetChannelByUID (key_UID key))
                    else ret None) ;;
          match byUID with
          | Some c => extractChannels_loop keys' (channels ++ [c])
          | None =>
              log_Warn "Failed to get alert notification, skipping"
                [("notificationKey", VKey key)] ;;;
              extractChannels_loop keys' channels
          end
      end
  end.

Definition extractChannels (parsedSettings : dashAlertSettings)
    : M E (list AlertNotification) :=
  extractChannels_loop (Notifications parsedSettings) [].

(** *** Silences *)

(** [om.addErrorSilence] and [om.addNoDataSilence] are declared elsewhere:
    a call is recorded as a request for the rule it is given, and what the
    call does is left to the collaborator. *)
Definition addErrorSilence (ar : AlertRule) : M E (option error) :=
  emit (SilenceRequested ErrorSilence ar) ;;;
  call (createErrorSilence ar).

Definition addNoDataSilence (ar : AlertRule) : M E (option error) :=
  emit (SilenceRequested NoDataSilence ar) ;;;
  call (createNoDataSilence ar).

(** *** The assembler *)

(** The end of [migrateAlert], once the rule is built: the label for
    silences and the silences themselves. *)
Definition migrateAlert_silences (parsedSettings : dashAlertSettings)
    (ar : AlertRule) : M E (Result AlertRule) :=
  let '(n, v) := getLabelForSilenceMatching (rule_UID ar) in
  let ar := with_Label ar n v in
  (if decide (ExecutionErrorState_ parsedSettings = ExecutionErrorKeepState) then
     err <- addErrorSilence ar ;;
     match err with
     | Some err =>
         log_Error "Alert migration error: failed to create silence for Error"
           [("rule_name", VString (rule_Title ar)); ("err", VError err)]
     | None => ret tt
     end
   else ret tt) ;;;
  (if decide (NoDataState_ parsedSettings = NoDataKeepState) then
     err <- addNoDataSilence ar ;;
     match err with
     | Some err =>
         log_Error "Alert migration error: failed to create silence for NoData"
           [("rule_name", VString (rule_Title ar)); ("err", VError err)]
     | None => ret tt
     end
   else ret tt) ;;;
  ret (Ok ar).

(** The middle of [migrateAlert], from the repaired queries on. *)
Definition migrateAlert_assemble (alert : Alert) (info : DashboardUpgradeInfo)
    (parsedSettings : dashAlertSettings) (cond : condition)
    (lbls annotations : gmap string string) (data : list AlertQuery)
    : M E (Result AlertRule) :=
  let isPaused := bool_decide (State alert = "paused") in
  name <- call (Deduplicate (NewFolderUID info) (Name alert)) ;;
  match name with
  | Err err => ret (Err err)
  | Ok name =>
      (if decide (name <> Name alert) then
         log_Info
           ("Alert rule title modified to be unique within the folder and fit within the maximum length of "
              +:+ pretty AlertDefinitionMaxTitleLength)
           [("old", VString (Name alert)); ("new", VString name)]
       else ret tt) ;;;
      let dashUID := DashboardUID info in
      uid <- call GenerateShortUID ;;
      ruleGroup <- lift (groupName (ruleAdjustInterval (Frequency alert)) (DashboardName info)) ;;
      updated <- call time_Now_UTC ;;
      noDataState <- transNoData (NoDataState_ parsedSettings) ;;
      execErrState <- transExecErr (ExecutionErrorState_ parsedSettings) ;;
      let ar :=
        {| rule_OrgID := OrgID alert;
           rule_Title := name;
           rule_UID := uid;
           rule_Condition := cond_Condition cond;
           rule_Data := data;
           rule_IntervalSeconds := ruleAdjustInterval (Frequency alert);
           rule_Version := 1;
           rule_NamespaceUID := NewFolderUID info;
           rule_DashboardUID := Some dashUID;
           rule_PanelID := Some (PanelID alert);
           rule_RuleGroup := ruleGroup;
           rule_For := For alert;
           rule_Updated := updated;
           rule_Annotations := annotations;
           rule_Labels := lbls;
           rule_RuleGroupIndex := 1;
           rule_IsPaused := isPaused;
           rule_NoDataState := noDataState;
           rule_ExecErrState := execErrState |} in
      migrateAlert_silences parsedSettings ar
  end.

Definition migrateAlert (alert : Alert) (info : DashboardUpgradeInfo)
    : M E (Result AlertRule) :=
  log_Debug "Migrating alert rule to Unified Alerting" [] ;;;
  match json_Marshal_Settings (alert_Settings alert) with
  | Err err => ret (Err (Wrapped "get settings" err))
  | Ok rawSettings =>
      match json_Unmarshal_Settings rawSettings with
      | Err err => ret (Err (Wrapped "parse settings" err))
      | Ok parsedSettings =>
          cond <- call (transConditions parsedSettings (OrgID alert)) ;;
          match cond with
          | Err err => ret (Err (Wrapped "transform conditions" err))
          | Ok cond =>
              channels <- extractChannels parsedSettings ;;
              la <- addLabelsAndAnnotations alert (DashboardUID info) channels ;;
              data <- migrateAlertRuleQueries (cond_Data cond) ;;
              match data with
              | Err err => ret (Err (Wrapped "queries" err))
              | Ok data =>
                  migrateAlert_assemble alert info parsedSettings cond la.1 la.2 data
              end
          end
      end
  end.

(** ** Properties *)

(** *** Machine integers, events *)

Lemma wrap64_id z : in_int64 z -> wrap64 z = z.
Proof.
  unfold in_int64, wrap64. intros Hz.
  rewrite Z.mod_small; lia.
Qed.

Lemma silence_requests_app evs1 evs2 :
  silence_requests (evs1 ++ evs2) = silence_requests evs1 ++ silence_requests evs2.
Proof.
  induction evs1 as [|[lvl msg ctx|kind ar] evs1 IH]; simpl; [done|done|].
  by rewrite IH.
Qed.

(** *** Byte strings *)

Lemma length_append (s1 s2 : string) :
  String.length (s1 +:+ s2) = (String.length s1 + String.length s2)%nat.
Proof. induction s1 as [|c s1 IH]; simpl; [done|]. by rewrite IH. Qed.

Lemma length_substring_prefix (n : nat) (s : string) :
  (n <= String.length s)%nat -> String.length (substring 0 n s) = n.
Proof.
  revert n. induction s as [|c s IH]; intros [|n] Hn; simpl in *; try done; [lia|].
  rewrite IH; [done|lia].
Qed.

Lemma prefix_substring (n : nat) (s : string) :
  String.prefix (substring 0 n s) s = true.
Proof.
  revert n. induction s as [|c s IH]; intros [|n]; simpl; try done.
  destruct (ascii_dec c c); [apply IH|done].
Qed.

Lemma prefix_refl (s : string) : String.prefix s s = true.
Proof.
  induction s as [|c s IH]; simpl; [done|].
  destruct (ascii_dec c c); [apply IH|done].
Qed.

(** *** The state translator *)

(** The table of the specification for the no-data option. *)
Definition noDataTable (s : string) : NoDataState :=
  if String.eqb s "ok" then OK
  else if String.eqb s "" then NoData
  else if String.eqb s "no_data" then NoData
  else if String.eqb s "alerting" then Alerting
  else if String.eqb s "keep_state" then NoData
  else NoData.

(** The table of the specification for the execution-error option. *)
Definition execErrTable (s : string) : ExecutionErrorState :=
  if String.eqb s "" then AlertingErrState
  else if String.eqb s "alerting" then AlertingErrState
  else if String.eqb s "keep_state" then ErrorErrState
  else if String.eqb s "ok" then OkErrState
  else ErrorErrState.

(** The options the tables name; any other one is translated with a
    warning. *)
Definition noDataKnown (s : string) : bool :=
  bool_decide (s ∈ ["ok"; ""; "no_data"; "alerting"; "keep_state"]).

Definition execErrKnown (s : string) : bool :=
  bool_decide (s ∈ [""; "alerting"; "keep_state"; "ok"]).

(** The world after one more warning of the translator, if [warn]. *)
Definition warned (warn : bool) (msg : string) (ctx : list (string * LogValue))
    (w : World E) : World E :=
  if warn then mkWorld (ext w) (trace w ++ [Logged LvlWarn msg ctx]) else w.

Ltac case_eqb :=
  repeat match goal with
  | |- context [String.eqb ?a ?b] => destruct (String.eqb_spec a b); subst
  end.

(** C1. Both translation functions return on every option string, never
    fail, and agree with the tables of the specification: [transNoData]
    sends "ok" to OK, "" and "no_data" to NoData, "alerting" to Alerting,
    "keep_state" to NoData and any other string to NoData; [transExecErr]
    sends "" and "alerting" to AlertingErrState, "keep_state" to
    ErrorErrState, "ok" to OkErrState and any other string to
    ErrorErrState. A warning is logged exactly for the strings the tables
    do not name, and nothing else changes. *)
Theorem state_translation_tables (s : string) (w : World E) :
  transNoData s w =
    (Returned (noDataTable s),
     warned (negb (noDataKnown s))
       "Unable to translate execution of NoData state. Using default execution"
       [("old", VString s); ("new", VNoData NoData)] w)
  /\ transExecErr s w =
    (Returned (execErrTable s),
     warned (negb (execErrKnown s))
       "Unable to translate execution of Error state. Using default execution"
       [("old", VString s); ("new", VExecErr ErrorErrState)] w).
Proof.
  clear - s w. split.
  - unfold transNoData, noDataTable, noDataKnown, NoDataSetOK, NoDataSetNoData,
      NoDataSetAlerting, NoDataKeepState.
    case_eqb; try reflexivity.
    rewrite !decide_False by intuition congruence.
    rewrite bool_decide_eq_false_2; [reflexivity|].
    rewrite !elem_of_cons, elem_of_nil. intuition congruence.
  - unfold transExecErr, execErrTable, execErrKnown, ExecutionErrorSetOk,
      ExecutionErrorSetAlerting, ExecutionErrorKeepState.
    case_eqb; try reflexivity.
    rewrite !decide_False by intuition congruence.
    rewrite bool_decide_eq_false_2; [reflexivity|].
    rewrite !elem_of_cons, elem_of_nil. intuition congruence.
Qed.

(** *** The interval *)

Lemma ruleAdjustInterval_small (freq : Z) :
  freq <= 10 -> ruleAdjustInterval freq = 10.
Proof. intros H. unfold ruleAdjustInterval. by rewrite (Zle_imp_le_bool _ _ H). Qed.

Lemma ruleAdjustInterval_large (freq : Z) :
  10 < freq -> in_int64 freq -> ruleAdjustInterval freq = 10 * (freq / 10).
Proof.
  intros H Hr. unfold ruleAdjustInterval.
  destruct (Z.leb_spec freq 10) as [?|_]; [lia|].
  rewrite Z.rem_mod_nonneg by lia.
  pose proof (Z.mod_pos_bound freq 10 ltac:(lia)).
  pose proof (Z.div_mod freq 10 ltac:(lia)).
  rewrite wrap64_id; [lia|]. unfold in_int64 in *. lia.
Qed.

(** C5, as the code has it. [ruleAdjustInterval] returns the base, 10,
    for a frequency at or below 10, and rounds any larger frequency down
    to the nearest multiple of 10; so the inputs 5, 10, 15, 23 and 100
    give 10, 10, 10, 20 and 100. *)
Theorem ruleAdjustInterval_rounds_down (freq : Z) :
  in_int64 freq ->
  (freq <= 10 -> ruleAdjustInterval freq = 10)
  /\ (10 < freq ->
      ruleAdjustInterval freq = 10 * (freq / 10)
      /\ ruleAdjustInterval freq <= freq < ruleAdjustInterval freq + 10)
  /\ List.map ruleAdjustInterval [5; 10; 15; 23; 100] = [10; 10; 10; 20; 100].
Proof.
  intros Hr. split; [apply ruleAdjustInterval_small|]. split; [|reflexivity].
  intros H. rewrite ruleAdjustInterval_large by done.
  pose proof (Z.mod_pos_bound freq 10 ltac:(lia)).
  pose proof (Z.div_mod freq 10 ltac:(lia)). lia.
Qed.

(** C10. On every 64-bit frequency, zero and the negative ones included,
    [ruleAdjustInterval] returns a 64-bit value that is at least 10 and a
    multiple of 10. *)
Theorem ruleAdjustInterval_positive_multiple (freq : Z) :
  in_int64 freq ->
  10 <= ruleAdjustInterval freq
  /\ ruleAdjustInterval freq mod 10 = 0
  /\ in_int64 (ruleAdjustInterval freq).
Proof.
  intros Hr. destruct (Z.le_gt_cases freq 10) as [H|H].
  - rewrite ruleAdjustInterval_small by done. unfold in_int64. repeat split; lia.
  - rewrite ruleAdjustInterval_large by (done || lia).
    pose proof (Z.mod_pos_bound freq 10 ltac:(lia)).
    pose proof (Z.div_mod freq 10 ltac:(lia)).
    split; [lia|]. split.
    + rewrite Z.mul_comm. apply Z_mod_mult.
    + unfold in_int64 in *. lia.
Qed.

(** *** The group name *)

(** The suffix [groupName] builds for an interval. *)
Definition panelSuffix (interval : Z) : string :=
  " - " +:+ Duration_String (wrap64 (interval * 1000000000)).

(** C6. When the maximum leaves room for the suffix, [groupName] returns
    a prefix of the dashboard title followed by the whole suffix
    " - <duration>"; the result is never longer than the maximum; a title
    that fits is kept whole, and a title that does not fit is cut so that
    the result is exactly as long as the maximum. *)
Theorem groupName_fits (interval : Z) (dashboardTitle : string) :
  Z.of_nat (String.length (panelSuffix interval)) <= AlertRuleMaxRuleGroupNameLength ->
  exists truncatedDashboard,
    groupName interval dashboardTitle
      = Returned (truncatedDashboard +:+ panelSuffix interval)
    /\ String.prefix truncatedDashboard dashboardTitle = true
    /\ Z.of_nat (String.length (truncatedDashboard +:+ panelSuffix interval))
         <= AlertRuleMaxRuleGroupNameLength
    /\ (Z.of_nat (String.length dashboardTitle + String.length (panelSuffix interval))
          <= AlertRuleMaxRuleGroupNameLength ->
        truncatedDashboard = dashboardTitle)
    /\ (AlertRuleMaxRuleGroupNameLength
          < Z.of_nat (String.length dashboardTitle + String.length (panelSuffix interval)) ->
        Z.of_nat (String.length (truncatedDashboard +:+ panelSuffix interval))
          = AlertRuleMaxRuleGroupNameLength).
Proof.
  intros Hroom. unfold groupName, truncate. fold (panelSuffix interval).
  set (sfx := panelSuffix interval) in *.
  set (room := AlertRuleMaxRuleGroupNameLength - Z.of_nat (String.length sfx)).
  destruct (Z.gtb_spec (Z.of_nat (String.length dashboardTitle)) room) as [Hlong|Hshort].
  - destruct (Z.ltb_spec room 0) as [?|_]; [lia|].
    exists (substring 0 (Z.to_nat room) dashboardTitle).
    assert (String.length (substring 0 (Z.to_nat room) dashboardTitle) = Z.to_nat room)
      as Hlen by (apply length_substring_prefix; lia).
    rewrite length_append, Hlen.
    repeat split; [apply prefix_substring|lia|lia|lia].
  - exists dashboardTitle. rewrite length_append.
    repeat split; [apply prefix_refl|lia|lia].
Qed.

(** *** Worlds *)

(** [quiet w w']: from [w] to [w'] the collaborators were left alone and
    no silence was asked for; only messages were logged. *)
Definition quiet (w w' : World E) : Prop :=
  ext w' = ext w
  /\ silence_requests (trace w') = silence_requests (trace w).

Lemma quiet_refl w : quiet w w.
Proof. by split. Qed.

Lemma quiet_trans w1 w2 w3 : quiet w1 w2 -> quiet w2 w3 -> quiet w1 w3.
Proof. intros [? ?] [? ?]. split; congruence. Qed.

Lemma quiet_log lvl msg ctx (w : World E) :
  quiet w (mkWorld (ext w) (trace w ++ [Logged lvl msg ctx])).
Proof.
  split; [done|]. simpl. rewrite silence_requests_app. simpl. by rewrite app_nil_r.
Qed.

(** *** Decoding and encoding of query models *)

Definition wellformed (r : RawMessage) : Prop := exists v, r = Wellformed v.

(** Every raw message a map holds is a JSON text. *)
Definition wf_map (m : GoMap) : Prop :=
  map_Forall (fun _ r => wellformed r) (entries_of m).

(** The models [json.Unmarshal] takes for a map: an object, or [null]. *)
Definition decodable (r : RawMessage) : bool :=
  match r with
  | Wellformed JNull | Wellformed (JObject _) => true
  | _ => false
  end.

(** The models that are a JSON object. *)
Definition is_json_object (r : RawMessage) : bool :=
  match r with
  | Wellformed (JObject _) => true
  | _ => false
  end.

Definition raw_member (kv : string * value) : string * RawMessage :=
  (kv.1, Wellformed kv.2).

Lemma members_to_map_snoc (members : list (string * value)) (kv : string * value) :
  members_to_map (members ++ [kv])
    = <[kv.1 := Wellformed kv.2]> (members_to_map members).
Proof. unfold members_to_map. by rewrite fold_left_app. Qed.

Lemma members_to_map_list (members : list (string * value)) :
  members_to_map members = list_to_map (rev (List.map raw_member members)).
Proof.
  induction members as [|kv members IH] using rev_ind; [done|].
  rewrite members_to_map_snoc, IH, map_app, rev_app_distr. done.
Qed.

Lemma members_to_map_wf (members : list (string * value)) :
  map_Forall (fun _ r => wellformed r) (members_to_map members).
Proof.
  induction members as [|kv members IH] using rev_ind.
  - intros k r Hk. unfold members_to_map in Hk. simpl in Hk.
    by rewrite lookup_empty in Hk.
  - rewrite members_to_map_snoc.
    apply map_Forall_insert_2; [by eexists|done].
Qed.

Lemma Unmarshal_map_decodable (r : RawMessage) :
  match Unmarshal_map r with
  | Ok m => decodable r = true /\ wf_map m
  | Err _ => decodable r = false
  end.
Proof.
  destruct r as [text|[]]; simpl; try done.
  split; [done|]. apply members_to_map_wf.
Qed.

Lemma docs_of_wf (kvs : list (string * RawMessage)) :
  Forall (fun kv => wellformed kv.2) kvs ->
  exists vs, docs_of kvs = Ok vs /\ List.map raw_member vs = kvs.
Proof.
  induction 1 as [|[k r] kvs Hr _ IH]; simpl in *; [by exists []|].
  destruct Hr as [v ->]. destruct IH as (vs & Hvs & <-).
  rewrite Hvs. by exists ((k, v) :: vs).
Qed.

(** Encoding a map of JSON texts never fails; the object written holds
    the entries of the map, and the nil map is written as [null]. *)
Lemma Marshal_map_wf (m : GoMap) :
  wf_map m ->
  exists r, Marshal_map m = Ok r
    /\ match m with
       | NilMap => r = Wellformed JNull
       | MkMap entries =>
           exists members, r = Wellformed (JObject members)
             /\ members_to_map members = entries
       end.
Proof.
  destruct m as [|entries]; intros Hwf; simpl; [by eexists|].
  destruct (docs_of_wf (map_to_list entries)) as (vs & Hvs & Hraw).
  { apply map_Forall_to_list in Hwf.
    eapply Forall_impl; [exact Hwf|]. by intros [k r]. }
  rewrite Hvs. eexists. split; [done|]. eexists. split; [done|].
  rewrite members_to_map_list.
  rewrite <- (list_to_map_to_list entries), <- Hraw.
  assert (rev (List.map raw_member (merge_sort key_le vs)) ≡ₚ List.map raw_member vs)
    as Hperm.
  { rewrite <- Permutation_rev. apply Permutation_map, merge_sort_Permutation. }
  apply list_to_map_proper; [|done].
  rewrite Hperm, Hraw. apply NoDup_fst_map_to_list.
Qed.

(** *** The Graphite repair *)

(** What [fixGraphiteReferencedSubQueries] leaves of a map. *)
Definition graphiteFixed (m : GoMap) : GoMap :=
  match mget TargetFullModelField m with
  | Some fullQuery =>
      MkMap (<[TargetModelField := fullQuery]> (delete TargetFullModelField (entries_of m)))
  | None => m
  end.

Lemma fixGraphiteReferencedSubQueries_run (queryData : GoMap) (w : World E) :
  fixGraphiteReferencedSubQueries queryData w = (Returned (graphiteFixed queryData), w).
Proof.
  unfold fixGraphiteReferencedSubQueries, graphiteFixed.
  destruct queryData as [|entries]; simpl; [done|].
  by destruct (entries !! TargetFullModelField).
Qed.

Lemma graphiteFixed_wf (m : GoMap) : wf_map m -> wf_map (graphiteFixed m).
Proof.
  unfold graphiteFixed, wf_map. intros Hwf.
  destruct (mget TargetFullModelField m) as [fullQuery|] eqn:Hfull; [|done].
  destruct m as [|entries]; simpl in *; [done|].
  apply map_Forall_insert_2; [|by apply map_Forall_delete].
  by apply (Hwf _ _ Hfull).
Qed.

(** C4. On a query model that holds both the raw Graphite target field
    and the expanded one, [fixGraphiteReferencedSubQueries] returns, with
    no other effect, the model in which the raw field holds the expanded
    value, the expanded field is gone, and every other key is as before. *)
Theorem fixGraphite_promotes_expanded (queryData : GoMap)
    (raw fullQuery : RawMessage) (w : World E) :
  TargetFullModelField <> TargetModelField ->
  mget TargetModelField queryData = Some raw ->
  mget TargetFullModelField queryData = Some fullQuery ->
  exists queryData',
    fixGraphiteReferencedSubQueries queryData w = (Returned queryData', w)
    /\ mget TargetModelField queryData' = Some fullQuery
    /\ mget TargetFullModelField queryData' = None
    /\ forall k, k <> TargetModelField -> k <> TargetFullModelField ->
         mget k queryData' = mget k queryData.
Proof.
  intros Hne Hraw Hfull. exists (graphiteFixed queryData).
  split; [apply fixGraphiteReferencedSubQueries_run|].
  unfold graphiteFixed. rewrite Hfull.
  destruct queryData as [|entries]; simpl in *; [done|].
  split; [apply lookup_insert_eq|]. split.
  - rewrite lookup_insert_ne by done. apply lookup_delete_eq.
  - intros k Hk1 Hk2. rewrite lookup_insert_ne by done.
    by rewrite lookup_delete_ne.
Qed.

(** *** The Prometheus repair *)

(** The flag under a key is there and decodes to [true]. *)
Definition parses_true (o : option RawMessage) : bool :=
  match o with
  | Some raw =>
      match Unmarshal_bool raw false with
      | Ok true => true
      | _ => false
      end
  | None => false
  end.

(** [isPrometheusQuery] answers yes, without an error. *)
Definition isPrometheus (m : GoMap) : bool :=
  match isPrometheusQuery m with
  | (true, None) => true
  | _ => false
  end.

(** A Prometheus query of type 'Both'. *)
Definition isBothPrometheus (m : GoMap) : bool :=
  parses_true (mget "instant" m) && parses_true (mget "range" m) && isPrometheus m.

(** The map with the instant flag switched off. *)
Definition instantOff (m : GoMap) : GoMap :=
  MkMap (<["instant" := Wellformed (JBool false)]> (entries_of m)).

(** What [fixPrometheusBothTypeQuery] leaves of a map. *)
Definition prometheusFixed (m : GoMap) : GoMap :=
  if isBothPrometheus m then instantOff m else m.

Ltac run_log :=
  unfold bind, log_Info, log_Warn, emit, ret; simpl;
  eexists; split; [reflexivity|first [apply quiet_refl | apply quiet_log]].

Lemma fixPrometheusBothTypeQuery_convert_run (m : GoMap) (instant rng : bool)
    (w : World E) :
  exists w',
    fixPrometheusBothTypeQuery_convert m instant rng w
      = (Returned (if instant && rng && isPrometheus m then instantOff m else m), w')
    /\ quiet w w'.
Proof.
  unfold fixPrometheusBothTypeQuery_convert, isPrometheus.
  destruct instant, rng; simpl; try run_log.
  destruct (isPrometheusQuery m) as [b [err|]] eqn:Hp.
  - destruct b; run_log.
  - destruct b; simpl; [|run_log].
    destruct m as [|entries]; [by unfold isPrometheusQuery in Hp|].
    run_log.
Qed.

Lemma parses_true_Ok (raw : RawMessage) (b : bool) :
  Unmarshal_bool raw false = Ok b -> parses_true (Some raw) = b.
Proof. unfold parses_true. intros ->. by destruct b. Qed.

Lemma parses_true_Err (raw : RawMessage) (err : error) :
  Unmarshal_bool raw false = Err err -> parses_true (Some raw) = false.
Proof. unfold parses_true. by intros ->. Qed.

Lemma fixPrometheusBothTypeQuery_range_run (m : GoMap) (instant : bool)
    (w : World E) :
  exists w',
    fixPrometheusBothTypeQuery_range m instant w
      = (Returned (if instant && parses_true (mget "range" m) && isPrometheus m
                   then instantOff m else m), w')
    /\ quiet w w'.
Proof.
  unfold fixPrometheusBothTypeQuery_range.
  destruct (mget "range" m) as [rangeRaw|] eqn:Hr.
  - destruct (Unmarshal_bool rangeRaw false) as [rng|err] eqn:Hrng.
    + rewrite (parses_true_Ok _ _ Hrng).
      apply fixPrometheusBothTypeQuery_convert_run.
    + rewrite (parses_true_Err _ _ Hrng), andb_false_r. simpl.
      destruct (isPrometheusQuery m).1; run_log.
  - replace (parses_true None) with false by done.
    apply fixPrometheusBothTypeQuery_convert_run.
Qed.

Lemma fixPrometheusBothTypeQuery_run (m : GoMap) (w : World E) :
  exists w',
    fixPrometheusBothTypeQuery m w = (Returned (prometheusFixed m), w')
    /\ quiet w w'.
Proof.
  unfold fixPrometheusBothTypeQuery, prometheusFixed, isBothPrometheus.
  destruct (mget "instant" m) as [instantRaw|] eqn:Hi.
  - destruct (Unmarshal_bool instantRaw false) as [instant|err] eqn:Hinstant.
    + rewrite (parses_true_Ok _ _ Hinstant).
      apply fixPrometheusBothTypeQuery_range_run.
    + rewrite (parses_true_Err _ _ Hinstant). simpl.
      destruct (isPrometheusQuery m).1; run_log.
  - replace (parses_true None) with false by done.
    apply fixPrometheusBothTypeQuery_range_run.
Qed.

Lemma prometheusFixed_wf (m : GoMap) : wf_map m -> wf_map (prometheusFixed m).
Proof.
  unfold prometheusFixed, instantOff, wf_map. intros Hwf.
  destruct (isBothPrometheus m); [|done]. simpl.
  apply map_Forall_insert_2; [by eexists|done].
Qed.

(** C3. Take a query model whose "instant" and "range" fields both decode
    to true. If the "type" of its "datasource" field decodes to the
    Prometheus type, [fixPrometheusBothTypeQuery] returns the model with
    "instant" rewritten to false and every other key, "range" among them,
    as before. If the datasource field is absent, or does not decode, or
    decodes to an empty type or to any other type such as "graphite", the
    model is returned as it is. In both cases only the log is written. *)
Theorem fixPrometheus_both_to_range (queryData : GoMap)
    (instantRaw rangeRaw : RawMessage) (w : World E) :
  mget "instant" queryData = Some instantRaw ->
  Unmarshal_bool instantRaw false = Ok true ->
  mget "range" queryData = Some rangeRaw ->
  Unmarshal_bool rangeRaw false = Ok true ->
  exists queryData' w',
    fixPrometheusBothTypeQuery queryData w = (Returned queryData', w')
    /\ quiet w w'
    /\ (forall ds,
          mget "datasource" queryData = Some ds ->
          Unmarshal_datasource ds = (DS_PROMETHEUS, None) ->
          mget "instant" queryData' = Some (Wellformed (JBool false))
          /\ mget "range" queryData' = Some rangeRaw
          /\ forall k, k <> "instant" -> mget k queryData' = mget k queryData)
    /\ (mget "datasource" queryData = None
        \/ (exists ds, mget "datasource" queryData = Some ds
            /\ ((exists Type_ err, Unmarshal_datasource ds = (Type_, Some err))
                \/ Unmarshal_datasource ds = ("", None)
                \/ (exists Type_, Unmarshal_datasource ds = (Type_, None)
                    /\ Type_ <> DS_PROMETHEUS))) ->
        queryData' = queryData).
Proof.
  intros Hi Hinstant Hr Hrng.
  destruct (fixPrometheusBothTypeQuery_run queryData w) as (w' & Hrun & Hquiet).
  exists (prometheusFixed queryData), w'. split; [done|]. split; [done|].
  unfold prometheusFixed, isBothPrometheus, isPrometheus, isPrometheusQuery.
  rewrite Hi, Hr, (parses_true_Ok _ _ Hinstant), (parses_true_Ok _ _ Hrng). simpl.
  split.
  - intros ds Hds Hty. rewrite Hds, Hty. simpl.
    destruct queryData as [|entries]; [done|]. simpl in *.
    split; [apply lookup_insert_eq|]. split.
    + by rewrite lookup_insert_ne.
    + intros k Hk. by rewrite lookup_insert_ne.
  - intros [Hds|(ds & Hds & [(Type_ & err & Hty)|[Hty|(Type_ & Hty & Hne)]])];
      rewrite Hds; try rewrite Hty; try done.
    destruct (decide (Type_ = "")); [done|].
    by rewrite bool_decide_eq_false_2.
Qed.

(** *** The query repairer *)

(** What the three repairs leave of a decoded model. *)
Definition repairedMap (m : GoMap) : GoMap :=
  prometheusFixed (graphiteFixed (mdelete "hide" m)).

Lemma mdelete_wf (k : string) (m : GoMap) : wf_map m -> wf_map (mdelete k m).
Proof.
  destruct m as [|entries]; [done|]. unfold wf_map. simpl.
  apply map_Forall_delete.
Qed.

Lemma repairedMap_wf (m : GoMap) : wf_map m -> wf_map (repairedMap m).
Proof.
  intros Hwf. by apply prometheusFixed_wf, graphiteFixed_wf, mdelete_wf.
Qed.

(** How a query of the output relates to the query of the input it comes
    from: an expression is passed on as it is, any other query gets the
    encoding of its repaired model. *)
Definition query_repaired (d d' : AlertQuery) : Prop :=
  if decide (DatasourceUID d = expressionDatasourceUID) then d' = d
  else
    exists m r,
      Unmarshal_map (Model d) = Ok m
      /\ Marshal_map (repairedMap m) = Ok r
      /\ d' = with_Model d r.

(** The two queries differ at most in their model. *)
Definition same_but_Model (d d' : AlertQuery) : Prop :=
  RefID d' = RefID d
  /\ QueryType d' = QueryType d
  /\ RelativeTimeRange d' = RelativeTimeRange d
  /\ DatasourceUID d' = DatasourceUID d.

(** A query that makes the repairer fail: not an expression, and a model
    that is neither a JSON object nor [null]. *)
Definition rejected (d : AlertQuery) : Prop :=
  DatasourceUID d <> expressionDatasourceUID /\ decodable (Model d) = false.

Lemma query_repaired_same (d d' : AlertQuery) :
  query_repaired d d' -> same_but_Model d d'.
Proof.
  unfold query_repaired, same_but_Model.
  destruct (decide _) as [_|_]; [by intros ->|].
  by intros (m & r & _ & _ & ->).
Qed.

Lemma migrateAlertRuleQueries_loop_run (data result : list AlertQuery)
    (w : World E) :
  exists w',
    quiet w w'
    /\ ((exists out,
           migrateAlertRuleQueries_loop data result w
             = (Returned (Ok (result ++ out)), w')
           /\ Forall2 query_repaired data out
           /\ ~ Exists rejected data)
        \/ (exists err,
              migrateAlertRuleQueries_loop data result w = (Returned (Err err), w')
              /\ Exists rejected data)).
Proof.
  revert result w. induction data as [|d data IH]; intros result w; simpl.
  { exists w. split; [apply quiet_refl|]. left. exists [].
    rewrite app_nil_r. split; [done|]. split; [constructor|].
    by intros ?%Exists_nil. }
  destruct (decide (DatasourceUID d = expressionDatasourceUID)) as [Hexpr|Hquery].
  - destruct (IH (result ++ [d]) w) as (w' & Hq & [(out & Hrun & Hout & Hacc)|(err & Hrun & Hrej)]).
    + exists w'. split; [done|]. left. exists (d :: out).
      rewrite Hrun, <- app_assoc. split; [done|]. split.
      * constructor; [|done]. unfold query_repaired. by rewrite decide_True.
      * intros [[? _]|?]%Exists_cons; done.
    + exists w'. split; [done|]. right. exists err.
      split; [done|]. by apply Exists_cons_tl.
  - pose proof (Unmarshal_map_decodable (Model d)) as Hdec.
    destruct (Unmarshal_map (Model d)) as [m|err] eqn:Hm.
    + destruct Hdec as [Hdec Hwf].
      destruct (fixPrometheusBothTypeQuery_run (graphiteFixed (mdelete "hide" m)) w)
        as (w1 & Hfix & Hq1).
      destruct (Marshal_map_wf (repairedMap m) (repairedMap_wf m Hwf)) as (r & Hr & _).
      assert (forall k : list AlertQuery -> M E (Result (list AlertQuery)),
        (fixedData <- fixGraphiteReferencedSubQueries (mdelete "hide" m) ;;
         fixedData <- fixPrometheusBothTypeQuery fixedData ;;
         match Marshal_map fixedData with
         | Ok updatedModel => k (result ++ [with_Model d updatedModel])
         | Err err => ret (Err err)
         end) w = k (result ++ [with_Model d r]) w1) as Hbody.
      { intros k. unfold bind at 1.
        rewrite fixGraphiteReferencedSubQueries_run. unfold bind at 1.
        rewrite Hfix. fold (repairedMap m). by rewrite Hr. }
      rewrite Hbody.
      destruct (IH (result ++ [with_Model d r]) w1)
        as (w' & Hq & [(out & Hrun & Hout & Hacc)|(err & Hrun & Hrej)]).
      * exists w'. split; [by eapply quiet_trans|]. left.
        exists (with_Model d r :: out).
        rewrite Hrun, <- app_assoc. split; [done|]. split.
        -- constructor; [|done]. unfold query_repaired.
           rewrite decide_False by done. by exists m, r.
        -- intros [[_ ?]|?]%Exists_cons; [congruence|done].
      * exists w'. split; [by eapply quiet_trans|]. right. exists err.
        split; [done|]. by apply Exists_cons_tl.
    + exists w. split; [apply quiet_refl|]. right. exists err.
      split; [done|]. by apply Exists_cons_hd.
Qed.

Lemma migrateAlertRuleQueries_run (data : list AlertQuery) (w : World E) :
  exists r w',
    migrateAlertRuleQueries data w = (Returned r, w')
    /\ quiet w w'
    /\ match r with
       | Ok out => Forall2 query_repaired data out /\ ~ Exists rejected data
       | Err _ => Exists rejected data
       end.
Proof.
  unfold migrateAlertRuleQueries.
  destruct (migrateAlertRuleQueries_loop_run data [] w)
    as (w' & Hq & [(out & Hrun & Hout & Hacc)|(err & Hrun & Hrej)]).
  - by exists (Ok out), w'.
  - by exists (Err err), w'.
Qed.

(** C2, as the code has it. [migrateAlertRuleQueries] always returns: a
    sequence that matches the input query by query, in order, where only
    the models may differ, or an error. It returns an error exactly when
    some query that is not an expression has a model that is neither a
    JSON object nor the literal [null]. Besides that it only writes to
    the log. *)
Theorem migrateAlertRuleQueries_outcome (data : list AlertQuery) (w : World E) :
  exists r w',
    migrateAlertRuleQueries data w = (Returned r, w')
    /\ quiet w w'
    /\ ((exists err, r = Err err) <-> Exists rejected data)
    /\ (forall out, r = Ok out ->
          length out = length data /\ Forall2 same_but_Model data out).
Proof.
  destruct (migrateAlertRuleQueries_run data w) as (r & w' & Hrun & Hq & Hr).
  exists r, w'. split; [done|]. split; [done|].
  destruct r as [out|err].
  - destruct Hr as [Hout Hacc]. split.
    + split; [by intros [err ?]|done].
    + intros out' [= <-]. split; [symmetry; by eapply Forall2_length|].
      eapply Forall2_impl; [exact Hout|]. apply query_repaired_same.
  - split; [|done]. split; [done|by exists err].
Qed.

(** Two models are equivalent when both are JSON objects that hold the
    same key-value mapping, whatever the order of their members. *)
Definition json_equivalent (r1 r2 : RawMessage) : Prop :=
  exists members1 members2,
    r1 = Wellformed (JObject members1)
    /\ r2 = Wellformed (JObject members2)
    /\ members_to_map members1 = members_to_map members2.

(** C9. Let a run of [migrateAlertRuleQueries] return a sequence, and let
    a query of the input be no expression and have for model a JSON
    object in the accepted shape: no "hide" key, no expanded Graphite
    target field, and not a Prometheus query with "instant" and "range"
    both true. Then the query at the same place of the output differs
    from it at most in the model, and its model is equivalent to the
    model of the input. *)
Theorem migrateAlertRuleQueries_roundtrip (data out : list AlertQuery)
    (i : nat) (d : AlertQuery) (members : list (string * value))
    (w w' : World E) :
  migrateAlertRuleQueries data w = (Returned (Ok out), w') ->
  data !! i = Some d ->
  DatasourceUID d <> expressionDatasourceUID ->
  Model d = Wellformed (JObject members) ->
  members_to_map members !! "hide" = None ->
  members_to_map members !! TargetFullModelField = None ->
  isBothPrometheus (MkMap (members_to_map members)) = false ->
  exists d',
    out !! i = Some d'
    /\ same_but_Model d d'
    /\ json_equivalent (Model d') (Model d).
Proof.
  intros Hrun Hi Hquery Hmodel Hhide Hfull Hboth.
  destruct (migrateAlertRuleQueries_run data w) as (r & w1 & Hrun1 & _ & Hr).
  rewrite Hrun in Hrun1. injection Hrun1 as <- <-. destruct Hr as [Hout _].
  destruct (Forall2_lookup_l _ _ _ _ _ Hout Hi) as (d' & Hi' & Hrep).
  exists d'. split; [done|]. split; [by apply query_repaired_same|].
  unfold query_repaired in Hrep. rewrite decide_False in Hrep by done.
  destruct Hrep as (m & r & Hm & Hr & ->).
  rewrite Hmodel in Hm. injection Hm as <-.
  assert (repairedMap (MkMap (members_to_map members)) = MkMap (members_to_map members))
    as Hsame.
  { unfold repairedMap, graphiteFixed, prometheusFixed. simpl.
    rewrite (delete_id _ _ Hhide). simpl. rewrite Hfull. by rewrite Hboth. }
  rewrite Hsame in Hr.
  destruct (Marshal_map_wf (MkMap (members_to_map members))) as (r' & Hr' & Hobj).
  { apply members_to_map_wf. }
  rewrite Hr in Hr'. injection Hr' as <-.
  destruct Hobj as (members' & -> & Heq).
  exists members', members. by rewrite Hmodel.
Qed.

(** *** Annotations *)

(** C8. Whatever the alert, [addLabelsAndAnnotations] returns, and the
    annotations it builds hold exactly the four fixed keys (which are four
    different strings): the dashboard UID, the panel id and the legacy
    alert id as decimal text, and the message as the template pass
    rendered it. Each key is there whatever its value, the empty string
    included. *)
Theorem addLabelsAndAnnotations_keys (alert : Alert) (dashboardUID : string)
    (channels : list AlertNotification) (w : World E) :
  NoDup [DashboardUIDAnnotation; PanelIDAnnotation;
         MigratedAlertIdAnnotation; MigratedMessageAnnotation] ->
  exists lbls annotations w',
    addLabelsAndAnnotations alert dashboardUID channels w
      = (Returned (lbls, annotations), w')
    /\ trace w' = trace w
    /\ dom annotations
         = {[DashboardUIDAnnotation; PanelIDAnnotation;
             MigratedAlertIdAnnotation; MigratedMessageAnnotation]}
    /\ size annotations = 4%nat
    /\ annotations !! DashboardUIDAnnotation = Some dashboardUID
    /\ annotations !! PanelIDAnnotation = Some (pretty (PanelID alert))
    /\ annotations !! MigratedAlertIdAnnotation = Some (pretty (ID alert))
    /\ annotations !! MigratedMessageAnnotation
         = Some (MigrateTmpl (Message alert) (ext w)).1.
Proof.
  intros Hkeys.
  rewrite !NoDup_cons, !elem_of_cons, elem_of_nil in Hkeys.
  destruct Hkeys as (Hd & Hp & Ha & _).
  assert (DashboardUIDAnnotation <> PanelIDAnnotation)
    by (intros ?; apply Hd; by left).
  assert (DashboardUIDAnnotation <> MigratedAlertIdAnnotation)
    by (intros ?; apply Hd; right; by left).
  assert (DashboardUIDAnnotation <> MigratedMessageAnnotation)
    by (intros ?; apply Hd; right; right; by left).
  assert (PanelIDAnnotation <> MigratedAlertIdAnnotation)
    by (intros ?; apply Hp; by left).
  assert (PanelIDAnnotation <> MigratedMessageAnnotation)
    by (intros ?; apply Hp; right; by left).
  assert (MigratedAlertIdAnnotation <> MigratedMessageAnnotation)
    by (intros ?; apply Ha; by left).
  clear Hd Hp Ha.
  unfold addLabelsAndAnnotations, bind, call, ret.
  destruct (MigrateTmpl (Message alert) (ext w)) as [message e'] eqn:Htmpl.
  do 3 eexists. split; [reflexivity|]. split; [reflexivity|]. simpl.
  split; [|split; [|repeat split]].
  - rewrite !dom_insert_L, dom_empty_L. apply set_eq. intros k.
    rewrite !elem_of_union, !elem_of_singleton, elem_of_empty.
    repeat match goal with H : _ |- _ => clear H end. tauto.
  - rewrite !map_size_insert_None.
    + by rewrite map_size_empty.
    + apply lookup_empty.
    + rewrite lookup_insert_ne by congruence. apply lookup_empty.
    + rewrite !lookup_insert_ne by congruence. apply lookup_empty.
    + rewrite !lookup_insert_ne by congruence. apply lookup_empty.
  - rewrite !lookup_insert_ne by congruence. apply lookup_insert_eq.
  - rewrite !lookup_insert_ne by congruence. apply lookup_insert_eq.
  - rewrite !lookup_insert_ne by congruence. apply lookup_insert_eq.
  - apply lookup_insert_eq.
Qed.

(** *** Silences *)

(** [no_request w w']: from [w] to [w'] no silence was asked for. *)
Definition no_request (w w' : World E) : Prop :=
  silence_requests (trace w') = silence_requests (trace w).

Lemma quiet_no_request w w' : quiet w w' -> no_request w w'.
Proof. by intros [_ ?]. Qed.

Lemma no_request_trans w1 w2 w3 :
  no_request w1 w2 -> no_request w2 w3 -> no_request w1 w3.
Proof. unfold no_request. congruence. Qed.

Lemma no_request_log lvl msg ctx (e : E) (w : World E) :
  no_request w (mkWorld e (trace w ++ [Logged lvl msg ctx])).
Proof.
  unfold no_request. simpl. rewrite silence_requests_app. simpl.
  by rewrite app_nil_r.
Qed.

Lemma transNoData_run (s : string) (w : World E) :
  exists st w', transNoData s w = (Returned st, w') /\ quiet w w'.
Proof.
  unfold transNoData. repeat case_decide;
    unfold bind, log_Warn, emit, ret; simpl;
    do 2 eexists; (split; [reflexivity|]);
    first [apply quiet_refl | apply quiet_log].
Qed.

Lemma transExecErr_run (s : string) (w : World E) :
  exists st w', transExecErr s w = (Returned st, w') /\ quiet w w'.
Proof.
  unfold transExecErr. repeat case_decide;
    unfold bind, log_Warn, emit, ret; simpl;
    do 2 eexists; (split; [reflexivity|]);
    first [apply quiet_refl | apply quiet_log].
Qed.

Lemma extractChannels_loop_run (keys : list notificationKey)
    (channels : list AlertNotification) (w : World E) :
  exists cs w', extractChannels_loop keys channels w = (Returned cs, w')
    /\ no_request w w'.
Proof.
  revert channels w. induction keys as [|key keys IH]; intros channels w; simpl.
  { by exists channels, w. }
  unfold bind at 1.
  assert (exists byID w1,
    (if 0 <? key_ID key then call (GetChannelByID (key_ID key)) else ret None) w
      = (Returned byID, w1) /\ no_request w w1) as (byID & w1 & -> & Hq1).
  { destruct (0 <? key_ID key); [|by exists None, w].
    unfold call. destruct (GetChannelByID (key_ID key) (ext w)) as [c e'].
    by do 2 eexists. }
  destruct byID as [c|].
  { destruct (IH (channels ++ [c]) w1) as (cs & w' & -> & Hq).
    exists cs, w'. split; [done|]. by eapply no_request_trans. }
  unfold bind at 1.
  assert (exists byUID w2,
    (if decide (key_UID key <> "") then call (GetChannelByUID (key_UID key))
     else ret None) w1 = (Returned byUID, w2) /\ no_request w1 w2)
    as (byUID & w2 & -> & Hq2).
  { destruct (decide _); [|by exists None, w1].
    unfold call. destruct (GetChannelByUID (key_UID key) (ext w1)) as [c e'].
    by do 2 eexists. }
  destruct byUID as [c|].
  { destruct (IH (channels ++ [c]) w2) as (cs & w' & -> & Hq).
    exists cs, w'. split; [done|].
    eapply no_request_trans; [|exact Hq]. by eapply no_request_trans. }
  unfold bind, log_Warn, emit. simpl.
  destruct (IH channels (mkWorld (ext w2)
      (trace w2 ++ [Logged LvlWarn "Failed to get alert notification, skipping"
                      [("notificationKey", VKey key)]])))
    as (cs & w' & -> & Hq).
  exists cs, w'. split; [done|].
  eapply no_request_trans; [|exact Hq].
  eapply no_request_trans; [exact Hq1|].
  eapply no_request_trans; [exact Hq2|]. apply no_request_log.
Qed.

(** The requests [migrateAlert] makes for a rule, given the two options
    of the parsed settings. *)
Definition requests_for (parsedSettings : dashAlertSettings) (ar : AlertRule)
    : list (SilenceKind * AlertRule) :=
  (if decide (ExecutionErrorState_ parsedSettings = "keep_state")
   then [(ErrorSilence, ar)] else [])
  ++ (if decide (NoDataState_ parsedSettings = "keep_state")
      then [(NoDataSilence, ar)] else []).

(** The rule carries the label that silences match, made from its UID. *)
Definition has_silence_label (ar : AlertRule) : Prop :=
  rule_Labels ar !! (getLabelForSilenceMatching (rule_UID ar)).1
    = Some (getLabelForSilenceMatching (rule_UID ar)).2.

Lemma bind_Returned {A B} (c : M E A) (k : A -> M E B) (w w1 : World E) (a : A) :
  c w = (Returned a, w1) -> bind c k w = k a w1.
Proof. unfold bind. by intros ->. Qed.

(** Asking for a silence and logging a failure of the collaborator adds
    one request, whatever the collaborator answers. *)
Lemma request_then_log (kind : SilenceKind)
    (create : AlertRule -> E -> option error * E) (msg : string)
    (ar : AlertRule) (w : World E) :
  exists w',
    (err <- (emit (SilenceRequested kind ar) ;;; call (create ar)) ;;
     match err with
     | Some err =>
         log_Error msg [("rule_name", VString (rule_Title ar)); ("err", VError err)]
     | None => ret tt
     end) w = (Returned tt, w')
    /\ silence_requests (trace w') = silence_requests (trace w) ++ [(kind, ar)].
Proof.
  unfold bind, emit, call, log_Error, ret. simpl.
  destruct (create ar (ext w)) as [[err|] e1]; simpl;
    eexists; (split; [reflexivity|]); simpl;
    repeat (rewrite silence_requests_app; simpl); by rewrite ?app_nil_r.
Qed.

Lemma migrateAlert_silences_run (parsedSettings : dashAlertSettings)
    (ar0 : AlertRule) (w : World E) :
  exists ar w',
    migrateAlert_silences parsedSettings ar0 w = (Returned (Ok ar), w')
    /\ rule_Annotations ar = rule_Annotations ar0
    /\ has_silence_label ar
    /\ silence_requests (trace w')
         = silence_requests (trace w) ++ requests_for parsedSettings ar.
Proof.
  unfold migrateAlert_silences, has_silence_label, requests_for,
    ExecutionErrorKeepState, NoDataKeepState, addErrorSilence, addNoDataSilence.
  destruct (getLabelForSilenceMatching (rule_UID ar0)) as [n v] eqn:Hlabel.
  set (ar := with_Label ar0 n v).
  exists ar.
  replace (getLabelForSilenceMatching (rule_UID ar)) with (n, v)
    by (symmetry; exact Hlabel).
  assert (rule_Labels ar !! n = Some v) as Hn by apply lookup_insert_eq.
  destruct (decide (ExecutionErrorState_ parsedSettings = "keep_state"));
    destruct (decide (NoDataState_ parsedSettings = "keep_state")).
  - destruct (request_then_log ErrorSilence createErrorSilence
        "Alert migration error: failed to create silence for Error" ar w)
      as (w1 & Hrun1 & Hreq1).
    destruct (request_then_log NoDataSilence createNoDataSilence
        "Alert migration error: failed to create silence for NoData" ar w1)
      as (w2 & Hrun2 & Hreq2).
    exists w2. rewrite (bind_Returned _ _ _ _ _ Hrun1), (bind_Returned _ _ _ _ _ Hrun2).
    repeat split; [done|]. by rewrite Hreq2, Hreq1, <- app_assoc.
  - destruct (request_then_log ErrorSilence createErrorSilence
        "Alert migration error: failed to create silence for Error" ar w)
      as (w1 & Hrun1 & Hreq1).
    exists w1. rewrite (bind_Returned _ _ _ _ _ Hrun1).
    repeat split; [done|]. by rewrite Hreq1.
  - destruct (request_then_log NoDataSilence createNoDataSilence
        "Alert migration error: failed to create silence for NoData" ar w)
      as (w2 & Hrun2 & Hreq2).
    exists w2. unfold bind at 1. unfold ret at 1.
    rewrite (bind_Returned _ _ _ _ _ Hrun2).
    repeat split; [done|]. by rewrite Hreq2.
  - exists w. repeat split; [done|]. by rewrite app_nil_r.
Qed.

Lemma call_run {A} (f : E -> A * E) (w : World E) :
  exists a w', call f w = (Returned a, w') /\ trace w' = trace w
    /\ (a, ext w') = f (ext w).
Proof.
  unfold call. destruct (f (ext w)) as [a e']. by exists a, (mkWorld e' (trace w)).
Qed.

Lemma no_request_trace (w w' : World E) : trace w' = trace w -> no_request w w'.
Proof. unfold no_request. by intros ->. Qed.

(** What a run of the assembler, or of its last part, leaves behind: a
    rule with its label and the requests made for it, or no request. *)
Definition assembled (parsedSettings : dashAlertSettings)
    (w : World E) (o : Outcome (Result AlertRule)) (w' : World E) : Prop :=
  match o with
  | Returned (Ok ar) =>
      has_silence_label ar
      /\ silence_requests (trace w')
           = silence_requests (trace w) ++ requests_for parsedSettings ar
  | _ => no_request w w'
  end.

Lemma assembled_after (parsedSettings : dashAlertSettings) (w0 w : World E) o w' :
  no_request w0 w -> assembled parsedSettings w o w' ->
  assembled parsedSettings w0 o w'.
Proof.
  unfold assembled, no_request. intros Hq.
  destruct o as [[ar|err]|msg]; rewrite ?Hq; done.
Qed.

Lemma migrateAlert_assemble_run (alert : Alert) (info : DashboardUpgradeInfo)
    (parsedSettings : dashAlertSettings) (cond : condition)
    (lbls annotations : gmap string string) (data : list AlertQuery)
    (w : World E) :
  exists o w',
    migrateAlert_assemble alert info parsedSettings cond lbls annotations data w
      = (o, w')
    /\ assembled parsedSettings w o w'
    /\ forall ar, o = Returned (Ok ar) -> rule_Annotations ar = annotations.
Proof.
  unfold migrateAlert_assemble.
  destruct (call_run (Deduplicate (NewFolderUID info) (Name alert)) w)
    as (name & w1 & Hrun1 & Ht1 & _).
  rewrite (bind_Returned _ _ _ _ _ Hrun1).
  destruct name as [name|err].
  2:{ do 2 eexists. split; [reflexivity|]. split; [|done].
      by apply no_request_trace. }
  assert (exists w2,
    (if decide (name <> Name alert) then
       log_Info
         ("Alert rule title modified to be unique within the folder and fit within the maximum length of "
            +:+ pretty AlertDefinitionMaxTitleLength)
         [("old", VString (Name alert)); ("new", VString name)]
     else ret tt) w1 = (Returned tt, w2) /\ no_request w1 w2)
    as (w2 & Hrun2 & Hq2).
  { destruct (decide _); eexists; (split; [reflexivity|]);
      [apply no_request_log|done]. }
  rewrite (bind_Returned _ _ _ _ _ Hrun2).
  destruct (call_run GenerateShortUID w2) as (uid & w3 & Hrun3 & Ht3 & _).
  rewrite (bind_Returned _ _ _ _ _ Hrun3).
  assert (no_request w w3) as Hq3.
  { eapply no_request_trans; [by apply no_request_trace|].
    eapply no_request_trans; [exact Hq2|]. by apply no_request_trace. }
  destruct (groupName (ruleAdjustInterval (Frequency alert)) (DashboardName info))
    as [ruleGroup|msg] eqn:Hgroup.
  2:{ do 2 eexists. split; [reflexivity|]. by split. }
  rewrite (bind_Returned _ _ w3 w3 ruleGroup) by done.
  destruct (call_run time_Now_UTC w3) as (updated & w4 & Hrun4 & Ht4 & _).
  rewrite (bind_Returned _ _ _ _ _ Hrun4).
  destruct (transNoData_run (NoDataState_ parsedSettings) w4)
    as (noDataState & w5 & Hrun5 & Hq5).
  rewrite (bind_Returned _ _ _ _ _ Hrun5).
  destruct (transExecErr_run (ExecutionErrorState_ parsedSettings) w5)
    as (execErrState & w6 & Hrun6 & Hq6).
  rewrite (bind_Returned _ _ _ _ _ Hrun6).
  match goal with
  | |- context [migrateAlert_silences parsedSettings ?ar0 w6] =>
      destruct (migrateAlert_silences_run parsedSettings ar0 w6)
        as (ar & w7 & Hrun7 & Hann & Hlabel & Hreq)
  end.
  exists (Returned (Ok ar)), w7. split; [done|]. split.
  - eapply assembled_after; [|by split].
    eapply no_request_trans; [exact Hq3|].
    eapply no_request_trans; [by apply no_request_trace|].
    eapply no_request_trans; by apply quiet_no_request.
  - by intros ? [= <-].
Qed.

(** The silences a run of [migrateAlert] asks for. A run that returns a
    rule asks for them for that rule, by the two options of the parsed
    settings, the error silence first; a run that returns an error, or
    panics, asks for none. *)
Lemma migrateAlert_requests_run (alert : Alert)
    (info : DashboardUpgradeInfo) (w : World E) :
  exists o w',
    migrateAlert alert info w = (o, w')
    /\ match o with
       | Returned (Ok ar) =>
           exists rawSettings parsedSettings,
             json_Marshal_Settings (alert_Settings alert) = Ok rawSettings
             /\ json_Unmarshal_Settings rawSettings = Ok parsedSettings
             /\ has_silence_label ar
             /\ silence_requests (trace w')
                  = silence_requests (trace w)
                    ++ (if decide (ExecutionErrorState_ parsedSettings = "keep_state")
                        then [(ErrorSilence, ar)] else [])
                    ++ (if decide (NoDataState_ parsedSettings = "keep_state")
                        then [(NoDataSilence, ar)] else [])
       | _ => silence_requests (trace w') = silence_requests (trace w)
       end.
Proof.
  unfold migrateAlert.
  rewrite (bind_Returned _ _ w
             (mkWorld (ext w)
                (trace w ++ [Logged LvlDebug "Migrating alert rule to Unified Alerting" []]))
             tt) by done.
  set (w0 := mkWorld _ _).
  assert (no_request w w0) as Hq0 by apply no_request_log.
  destruct (json_Marshal_Settings (alert_Settings alert)) as [rawSettings|err] eqn:Hraw.
  2:{ by do 2 eexists. }
  destruct (json_Unmarshal_Settings rawSettings) as [parsedSettings|err] eqn:Hparsed.
  2:{ by do 2 eexists. }
  destruct (call_run (transConditions parsedSettings (OrgID alert)) w0)
    as (cond & w1 & Hrun1 & Ht1 & _).
  rewrite (bind_Returned _ _ _ _ _ Hrun1).
  assert (no_request w w1) as Hq1.
  { eapply no_request_trans; [exact Hq0|]. by apply no_request_trace. }
  destruct cond as [cond|err].
  2:{ by do 2 eexists. }
  destruct (extractChannels_loop_run (Notifications parsedSettings) [] w1)
    as (channels & w2 & Hrun2 & Hq2).
  rewrite (bind_Returned _ _ _ _ _ Hrun2).
  assert (exists la w3,
    addLabelsAndAnnotations alert (DashboardUID info) channels w2 = (Returned la, w3)
    /\ trace w3 = trace w2) as (la & w3 & Hrun3 & Ht3).
  { unfold addLabelsAndAnnotations.
    destruct (call_run (MigrateTmpl (Message alert)) w2) as (message & w3 & Hrun & Ht & _).
    rewrite (bind_Returned _ _ _ _ _ Hrun). by do 2 eexists. }
  rewrite (bind_Returned _ _ _ _ _ Hrun3).
  destruct (migrateAlertRuleQueries_run (cond_Data cond) w3)
    as (data & w4 & Hrun4 & Hq4 & _).
  rewrite (bind_Returned _ _ _ _ _ Hrun4).
  assert (no_request w w4) as Hq.
  { eapply no_request_trans; [exact Hq1|].
    eapply no_request_trans; [exact Hq2|].
    eapply no_request_trans; [by apply no_request_trace|].
    by apply quiet_no_request. }
  destruct data as [data|err].
  2:{ by do 2 eexists. }
  destruct (migrateAlert_assemble_run alert info parsedSettings cond la.1 la.2 data w4)
    as (o & w' & Hrun & Hasm & _).
  exists o, w'. split; [done|].
  apply (assembled_after _ _ _ _ _ Hq) in Hasm.
  destruct o as [[ar|err]|msg]; [|done|done].
  destruct Hasm as [Hlabel Hreq]. by exists rawSettings, parsedSettings.
Qed.

(** ** Further properties of the code *)

(** *** Truncation and the group name *)

(** [truncate] panics exactly on a negative length. On any other length
    it returns the prefix of the name that is as long as the shorter of
    the name and the length, and truncating the result again changes
    nothing. *)
Theorem truncate_prefix_min (daName : string) (length : Z) :
  match truncate daName length with
  | Panicked _ => length < 0
  | Returned t =>
      0 <= length
      /\ String.prefix t daName = true
      /\ Z.of_nat (String.length t) = Z.min (Z.of_nat (String.length daName)) length
      /\ truncate t length = Returned t
  end.
Proof.
  unfold truncate.
  destruct (Z.gtb_spec (Z.of_nat (String.length daName)) length) as [Hlong|Hshort].
  - destruct (Z.ltb_spec length 0) as [Hneg|Hpos]; [done|].
    assert (String.length (substring 0 (Z.to_nat length) daName) = Z.to_nat length)
      as Hlen by (apply length_substring_prefix; lia).
    split; [done|]. split; [apply prefix_substring|]. split; [lia|].
    rewrite Hlen.
    destruct (Z.gtb_spec (Z.of_nat (Z.to_nat length)) length); [lia|done].
  - split; [lia|]. split; [apply prefix_refl|]. split; [lia|].
    destruct (Z.gtb_spec (Z.of_nat (String.length daName)) length); [lia|done].
Qed.

(** [groupName] panics exactly when the suffix alone is longer than the
    maximum length of a group name. *)
Theorem groupName_panics_iff (interval : Z) (dashboardTitle : string) :
  (exists msg, groupName interval dashboardTitle = Panicked msg)
  <-> AlertRuleMaxRuleGroupNameLength
        < Z.of_nat (String.length (panelSuffix interval)).
Proof.
  unfold groupName, truncate. fold (panelSuffix interval).
  set (room := AlertRuleMaxRuleGroupNameLength
                 - Z.of_nat (String.length (panelSuffix interval))).
  destruct (Z.gtb_spec (Z.of_nat (String.length dashboardTitle)) room) as [Hlong|Hshort].
  - destruct (Z.ltb_spec room 0) as [Hneg|Hpos].
    + split; [lia|]. by eexists.
    + split; [by intros [msg ?]|lia].
  - split; [by intros [msg ?]|lia].
Qed.

(** *** The interval *)

(** Adjusting an adjusted interval changes nothing. *)
Theorem ruleAdjustInterval_idempotent (freq : Z) :
  in_int64 freq ->
  ruleAdjustInterval (ruleAdjustInterval freq) = ruleAdjustInterval freq.
Proof.
  intros Hr. destruct (Z.le_gt_cases freq 10) as [H|H].
  - rewrite (ruleAdjustInterval_small freq H). reflexivity.
  - rewrite (ruleAdjustInterval_large freq) by (done || lia).
    pose proof (Z.mod_pos_bound freq 10 ltac:(lia)).
    pose proof (Z.div_mod freq 10 ltac:(lia)).
    destruct (Z.le_gt_cases (10 * (freq / 10)) 10) as [Hs|Hl].
    + rewrite ruleAdjustInterval_small by done. lia.
    + rewrite ruleAdjustInterval_large; [|lia|unfold in_int64 in *; lia].
      rewrite (Z.mul_comm 10 (freq / 10)), Z.div_mul by lia. lia.
Qed.

(** A larger frequency never gets a smaller interval. *)
Theorem ruleAdjustInterval_monotone (freq1 freq2 : Z) :
  in_int64 freq1 -> in_int64 freq2 -> freq1 <= freq2 ->
  ruleAdjustInterval freq1 <= ruleAdjustInterval freq2.
Proof.
  intros Hr1 Hr2 Hle.
  destruct (Z.le_gt_cases freq2 10) as [H2|H2].
  { rewrite !ruleAdjustInterval_small by lia. lia. }
  rewrite (ruleAdjustInterval_large freq2) by (done || lia).
  pose proof (Z.mod_pos_bound freq2 10 ltac:(lia)).
  pose proof (Z.div_mod freq2 10 ltac:(lia)).
  destruct (Z.le_gt_cases freq1 10) as [H1|H1].
  { rewrite ruleAdjustInterval_small by done. lia. }
  rewrite (ruleAdjustInterval_large freq1) by (done || lia).
  pose proof (Z.div_le_mono freq1 freq2 10 ltac:(lia) Hle). lia.
Qed.

(** *** More on the two repairs *)

Lemma isBothPrometheus_instantOff (m : GoMap) : isBothPrometheus (instantOff m) = false.
Proof.
  unfold isBothPrometheus, instantOff. simpl. by rewrite lookup_insert_eq.
Qed.

Lemma isBothPrometheus_prometheusFixed (m : GoMap) :
  isBothPrometheus (prometheusFixed m) = false.
Proof.
  unfold prometheusFixed. destruct (isBothPrometheus m) eqn:Hboth; [|done].
  apply isBothPrometheus_instantOff.
Qed.

Lemma isBothPrometheus_not_nil (m : GoMap) :
  isBothPrometheus m = true -> exists entries, m = MkMap entries.
Proof. destruct m as [|entries]; [done|]. by exists entries. Qed.

(** On every query model [fixPrometheusBothTypeQuery] returns, and only
    writes to the log. It changes no key other than "instant"; it either
    returns the model as it is or sets "instant" to false; and what it
    returns is never a Prometheus query of type 'Both'. *)
Theorem fixPrometheus_touches_only_instant (queryData : GoMap) (w : World E) :
  exists queryData' w',
    fixPrometheusBothTypeQuery queryData w = (Returned queryData', w')
    /\ quiet w w'
    /\ (forall k, k <> "instant" -> mget k queryData' = mget k queryData)
    /\ (queryData' = queryData
        \/ mget "instant" queryData' = Some (Wellformed (JBool false)))
    /\ isBothPrometheus queryData' = false.
Proof.
  destruct (fixPrometheusBothTypeQuery_run queryData w) as (w' & Hrun & Hq).
  exists (prometheusFixed queryData), w'. split; [done|]. split; [done|].
  split; [|split; [|apply isBothPrometheus_prometheusFixed]].
  - intros k Hk. unfold prometheusFixed.
    destruct (isBothPrometheus queryData) eqn:Hboth; [|done].
    destruct (isBothPrometheus_not_nil _ Hboth) as [entries ->]. simpl.
    by rewrite lookup_insert_ne.
  - unfold prometheusFixed. destruct (isBothPrometheus queryData); [|by left].
    right. simpl. apply lookup_insert_eq.
Qed.

(** Running [fixPrometheusBothTypeQuery] on its own result returns that
    result again. *)
Theorem fixPrometheus_idempotent (queryData : GoMap) (w : World E) :
  exists queryData' w',
    fixPrometheusBothTypeQuery queryData w = (Returned queryData', w')
    /\ forall w1, exists w2,
         fixPrometheusBothTypeQuery queryData' w1 = (Returned queryData', w2)
         /\ quiet w1 w2.
Proof.
  destruct (fixPrometheusBothTypeQuery_run queryData w) as (w' & Hrun & _).
  exists (prometheusFixed queryData), w'. split; [done|]. intros w1.
  destruct (fixPrometheusBothTypeQuery_run (prometheusFixed queryData) w1)
    as (w2 & Hrun2 & Hq2).
  exists w2. split; [|done]. rewrite Hrun2.
  unfold prometheusFixed at 1. by rewrite isBothPrometheus_prometheusFixed.
Qed.

Lemma graphiteFixed_no_expanded (m : GoMap) :
  TargetFullModelField <> TargetModelField ->
  mget TargetFullModelField (graphiteFixed m) = None.
Proof.
  intros Hne. unfold graphiteFixed.
  destruct (mget TargetFullModelField m) as [fullQuery|] eqn:Hfull; [|done].
  simpl. rewrite lookup_insert_ne by done. apply lookup_delete_eq.
Qed.

(** When the two Graphite field names differ, what
    [fixGraphiteReferencedSubQueries] returns never holds the expanded
    field; a model without the expanded field is returned as it is; and
    running the repair on its own result returns that result again. The
    repair has no other effect. *)
Theorem fixGraphite_removes_expanded (queryData : GoMap) (w : World E) :
  TargetFullModelField <> TargetModelField ->
  exists queryData',
    fixGraphiteReferencedSubQueries queryData w = (Returned queryData', w)
    /\ mget TargetFullModelField queryData' = None
    /\ (mget TargetFullModelField queryData = None -> queryData' = queryData)
    /\ forall w1,
         fixGraphiteReferencedSubQueries queryData' w1 = (Returned queryData', w1).
Proof.
  intros Hne. exists (graphiteFixed queryData).
  split; [apply fixGraphiteReferencedSubQueries_run|].
  pose proof (graphiteFixed_no_expanded queryData Hne) as Hnone.
  split; [done|]. split.
  - intros Hfull. unfold graphiteFixed. by rewrite Hfull.
  - intros w1. rewrite fixGraphiteReferencedSubQueries_run.
    unfold graphiteFixed at 1. by rewrite Hnone.
Qed.

(** *** More on the query repairer *)

Lemma Unmarshal_Marshal_map (m : GoMap) (r : RawMessage) :
  wf_map m -> Marshal_map m = Ok r -> Unmarshal_map r = Ok m.
Proof.
  intros Hwf Hr. destruct (Marshal_map_wf m Hwf) as (r' & Hr' & Hshape).
  rewrite Hr in Hr'. injection Hr' as <-.
  destruct m as [|entries]; [by subst r|].
  destruct Hshape as (members & -> & <-). done.
Qed.

Lemma mdelete_absent (k : string) (m : GoMap) : mget k m = None -> mdelete k m = m.
Proof.
  destruct m as [|entries]; [done|]. simpl. intros Hk. by rewrite delete_id.
Qed.

Lemma mget_prometheusFixed (k : string) (m : GoMap) :
  k <> "instant" -> mget k (prometheusFixed m) = mget k m.
Proof.
  intros Hk. unfold prometheusFixed.
  destruct (isBothPrometheus m) eqn:Hboth; [|done].
  destruct (isBothPrometheus_not_nil _ Hboth) as [entries ->]. simpl.
  by rewrite lookup_insert_ne.
Qed.

(** The names of the Graphite fields do not clash with each other nor
    with the keys the other repairs handle. *)
Definition fields_apart : Prop :=
  TargetFullModelField <> TargetModelField
  /\ TargetModelField <> "hide"
  /\ TargetFullModelField <> "instant".

Lemma repairedMap_shape (m : GoMap) :
  fields_apart ->
  mget "hide" (repairedMap m) = None
  /\ mget TargetFullModelField (repairedMap m) = None
  /\ isBothPrometheus (repairedMap m) = false.
Proof.
  intros (Hne & Hhide & Hinstant). unfold repairedMap.
  split; [|split; [|apply isBothPrometheus_prometheusFixed]].
  - rewrite mget_prometheusFixed by done. unfold graphiteFixed.
    assert (mget "hide" (mdelete "hide" m) = None) as Hgone.
    { destruct m as [|entries]; [done|]. apply lookup_delete_eq. }
    destruct (mget TargetFullModelField (mdelete "hide" m)); [|done].
    simpl. rewrite lookup_insert_ne by done.
    destruct (decide (TargetFullModelField = "hide")) as [->|Hfull].
    + apply lookup_delete_eq.
    + rewrite lookup_delete_ne by done.
      destruct m as [|entries]; [done|]. apply lookup_delete_eq.
  - rewrite mget_prometheusFixed by done. by apply graphiteFixed_no_expanded.
Qed.

Lemma repairedMap_fixed (m : GoMap) :
  mget "hide" m = None ->
  mget TargetFullModelField m = None ->
  isBothPrometheus m = false ->
  repairedMap m = m.
Proof.
  intros Hhide Hfull Hboth. unfold repairedMap.
  rewrite (mdelete_absent _ _ Hhide). unfold graphiteFixed. rewrite Hfull.
  unfold prometheusFixed. by rewrite Hboth.
Qed.

(** An expression is handed on as it is, whatever its model. *)
Theorem migrateAlertRuleQueries_keeps_expressions (data out : list AlertQuery)
    (i : nat) (d : AlertQuery) (w w' : World E) :
  migrateAlertRuleQueries data w = (Returned (Ok out), w') ->
  data !! i = Some d ->
  DatasourceUID d = expressionDatasourceUID ->
  out !! i = Some d.
Proof.
  intros Hrun Hi Hexpr.
  destruct (migrateAlertRuleQueries_run data w) as (r & w1 & Hrun1 & _ & Hr).
  rewrite Hrun in Hrun1. injection Hrun1 as <- <-. destruct Hr as [Hout _].
  destruct (Forall2_lookup_l _ _ _ _ _ Hout Hi) as (d' & Hi' & Hrep).
  unfold query_repaired in Hrep. rewrite decide_True in Hrep by done.
  by subst d'.
Qed.

(** Every query of the output that is no expression has a model in the
    accepted shape: it decodes, it has no "hide" key and no expanded
    Graphite target, and it is no Prometheus query of type 'Both'. *)
Theorem migrateAlertRuleQueries_output_shape (data out : list AlertQuery)
    (i : nat) (d' : AlertQuery) (w w' : World E) :
  fields_apart ->
  migrateAlertRuleQueries data w = (Returned (Ok out), w') ->
  out !! i = Some d' ->
  DatasourceUID d' <> expressionDatasourceUID ->
  exists m,
    Unmarshal_map (Model d') = Ok m
    /\ mget "hide" m = None
    /\ mget TargetFullModelField m = None
    /\ isBothPrometheus m = false.
Proof.
  intros Hapart Hrun Hi' Hquery.
  destruct (migrateAlertRuleQueries_run data w) as (r & w1 & Hrun1 & _ & Hr).
  rewrite Hrun in Hrun1. injection Hrun1 as <- <-. destruct Hr as [Hout _].
  destruct (Forall2_lookup_r _ _ _ _ _ Hout Hi') as (d & Hi & Hrep).
  unfold query_repaired in Hrep.
  destruct (decide (DatasourceUID d = expressionDatasourceUID)) as [Hexpr|_].
  { subst d'. done. }
  destruct Hrep as (m & r & Hm & Hr & ->).
  pose proof (Unmarshal_map_decodable (Model d)) as Hdec.
  rewrite Hm in Hdec. destruct Hdec as [_ Hwf].
  exists (repairedMap m). split.
  - apply Unmarshal_Marshal_map; [by apply repairedMap_wf|done].
  - by apply repairedMap_shape.
Qed.

Lemma query_repaired_again (d d' d2 : AlertQuery) :
  fields_apart ->
  query_repaired d d' -> query_repaired d' d2 -> d2 = d'.
Proof.
  intros Hapart Hrep Hrep2. unfold query_repaired in *.
  destruct (decide (DatasourceUID d = expressionDatasourceUID)) as [Hexpr|Hquery].
  { subst d'. by rewrite decide_True in Hrep2. }
  destruct Hrep as (m & r & Hm & Hr & ->).
  rewrite decide_False in Hrep2 by done.
  destruct Hrep2 as (m2 & r2 & Hm2 & Hr2 & ->). simpl in Hm2.
  pose proof (Unmarshal_map_decodable (Model d)) as Hdec.
  rewrite Hm in Hdec. destruct Hdec as [_ Hwf].
  rewrite (Unmarshal_Marshal_map _ _ (repairedMap_wf m Hwf) Hr) in Hm2.
  injection Hm2 as <-.
  destruct (repairedMap_shape m Hapart) as (Hhide & Hfull & Hboth).
  rewrite (repairedMap_fixed _ Hhide Hfull Hboth), Hr in Hr2.
  injection Hr2 as <-. done.
Qed.

Lemma query_repaired_accepted (d d' : AlertQuery) :
  query_repaired d d' -> d' = d \/ decodable (Model d') = true.
Proof.
  unfold query_repaired.
  destruct (decide (DatasourceUID d = expressionDatasourceUID)) as [Hexpr|Hquery].
  { intros ->. by left. }
  intros (m & r & Hm & Hr & ->). right. simpl.
  pose proof (Unmarshal_map_decodable (Model d)) as Hdec.
  rewrite Hm in Hdec. destruct Hdec as [_ Hwf].
  pose proof (Unmarshal_Marshal_map _ _ (repairedMap_wf m Hwf) Hr) as Hback.
  pose proof (Unmarshal_map_decodable r) as Hdec.
  rewrite Hback in Hdec. by destruct Hdec as [Hdec _].
Qed.

(** Repairing repaired queries changes nothing: a run on the output of a
    run returns that very output, and no error. *)
Theorem migrateAlertRuleQueries_idempotent (data out : list AlertQuery)
    (w w' w1 : World E) :
  fields_apart ->
  migrateAlertRuleQueries data w = (Returned (Ok out), w') ->
  exists w2,
    migrateAlertRuleQueries out w1 = (Returned (Ok out), w2) /\ quiet w1 w2.
Proof.
  intros Hapart Hrun.
  destruct (migrateAlertRuleQueries_run data w) as (r & w0 & Hrun0 & _ & Hr).
  rewrite Hrun in Hrun0. injection Hrun0 as <- <-. destruct Hr as [Hout Hacc].
  destruct (migrateAlertRuleQueries_run out w1) as (r2 & w2 & Hrun2 & Hq2 & Hr2).
  exists w2. split; [|done]. rewrite Hrun2. do 2 f_equal.
  destruct r2 as [out2|err].
  - destruct Hr2 as [Hout2 _]. f_equal.
    clear Hrun Hrun2 Hacc. revert out2 Hout2.
    induction Hout as [|d d' data out Hrep _ IH]; intros out2 Hout2.
    + by inversion Hout2.
    + inversion Hout2 as [|? d2 ? out2' Hrep2 Hrest]; subst.
      f_equal; [by eapply query_repaired_again|by apply IH].
  - exfalso. clear Hrun Hrun2.
    induction Hout as [|d d' data out Hrep _ IH].
    + by inversion Hr2.
    + apply Exists_cons in Hr2 as [[Hquery Hbad]|Hr2].
      * destruct (query_repaired_accepted _ _ Hrep) as [->|Hok]; [|congruence].
        apply Hacc. apply Exists_cons_hd. by split.
      * apply IH; [|done]. intros Hex. apply Hacc. by apply Exists_cons_tl.
Qed.

(** *** More on the notification channels *)

(** The warning logged for a key that resolves to no channel. *)
Definition skip_warning (key : notificationKey) : Event :=
  Logged LvlWarn "Failed to get alert notification, skipping"
    [("notificationKey", VKey key)].

Lemma extractChannels_loop_count (keys : list notificationKey)
    (channels : list AlertNotification) (w : World E) :
  exists found skipped w',
    extractChannels_loop keys channels w = (Returned (channels ++ found), w')
    /\ trace w' = trace w ++ List.map skip_warning skipped
    /\ sublist skipped keys
    /\ (length found + length skipped = length keys)%nat
    /\ forall key, key ∈ keys -> key_ID key <= 0 -> key_UID key = "" ->
         key ∈ skipped.
Proof.
  revert channels w. induction keys as [|key keys IH]; intros channels w; simpl.
  { exists [], [], w. rewrite !app_nil_r. repeat split; [done|].
    by intros key ?%elem_of_nil. }
  unfold bind at 1.
  assert (exists byID w1,
    (if 0 <? key_ID key then call (GetChannelByID (key_ID key)) else ret None) w
      = (Returned byID, w1) /\ trace w1 = trace w
    /\ (key_ID key <= 0 -> byID = None)) as (byID & w1 & -> & Ht1 & HnoID).
  { destruct (Z.ltb_spec 0 (key_ID key)); [|by exists None, w].
    unfold call. destruct (GetChannelByID (key_ID key) (ext w)) as [c e'].
    do 2 eexists. split; [reflexivity|]. split; [done|lia]. }
  destruct byID as [c|].
  { destruct (IH (channels ++ [c]) w1)
      as (found & skipped & w' & -> & Ht & Hsub & Hlen & Hbare).
    exists (c :: found), skipped, w'. rewrite <- app_assoc.
    split; [done|]. split; [by rewrite Ht, Ht1|].
    split; [by apply sublist_cons|]. split; [simpl; lia|].
    intros key' [->|Hin]%elem_of_cons Hid Huid; [|by apply Hbare].
    by specialize (HnoID Hid). }
  unfold bind at 1.
  assert (exists byUID w2,
    (if decide (key_UID key <> "") then call (GetChannelByUID (key_UID key))
     else ret None) w1 = (Returned byUID, w2) /\ trace w2 = trace w1
    /\ (key_UID key = "" -> byUID = None)) as (byUID & w2 & -> & Ht2 & HnoUID).
  { destruct (decide (key_UID key <> "")) as [Hu|Hu]; [|by exists None, w1].
    unfold call. destruct (GetChannelByUID (key_UID key) (ext w1)) as [c e'].
    do 2 eexists. split; [reflexivity|]. split; [done|]. by intros ?. }
  destruct byUID as [c|].
  { destruct (IH (channels ++ [c]) w2)
      as (found & skipped & w' & -> & Ht & Hsub & Hlen & Hbare).
    exists (c :: found), skipped, w'. rewrite <- app_assoc.
    split; [done|]. split; [by rewrite Ht, Ht2, Ht1|].
    split; [by apply sublist_cons|]. split; [simpl; lia|].
    intros key' [->|Hin]%elem_of_cons Hid Huid; [|by apply Hbare].
    by specialize (HnoUID Huid). }
  unfold bind, log_Warn, emit. simpl.
  destruct (IH channels (mkWorld (ext w2)
      (trace w2 ++ [Logged LvlWarn "Failed to get alert notification, skipping"
                      [("notificationKey", VKey key)]])))
    as (found & skipped & w' & -> & Ht & Hsub & Hlen & Hbare).
  exists found, (key :: skipped), w'.
  split; [done|]. split.
  { rewrite Ht. simpl. rewrite Ht2, Ht1, <- app_assoc. done. }
  split; [by apply sublist_skip|]. split; [simpl; lia|].
  intros key' [->|Hin]%elem_of_cons Hid Huid; [by left|].
  right. by apply Hbare.
Qed.

(** [extractChannels] always returns. Every notification key either
    gives one channel or is skipped with one warning, the warnings coming
    in the order of the keys, and nothing else is logged; a key with no
    positive id and no uid is always skipped. *)
Theorem extractChannels_found_or_skipped (parsedSettings : dashAlertSettings)
    (w : World E) :
  exists channels skipped w',
    extractChannels parsedSettings w = (Returned channels, w')
    /\ trace w' = trace w ++ List.map skip_warning skipped
    /\ sublist skipped (Notifications parsedSettings)
    /\ (length channels + length skipped
        = length (Notifications parsedSettings))%nat
    /\ forall key, key ∈ Notifications parsedSettings ->
         key_ID key <= 0 -> key_UID key = "" -> key ∈ skipped.
Proof.
  unfold extractChannels.
  destruct (extractChannels_loop_count (Notifications parsedSettings) [] w)
    as (found & skipped & w' & Hrun & Hrest).
  by exists found, skipped, w'.
Qed.

(** *** More on the labels *)

Lemma lookup_fold_insert_notin {A} (f g : A -> string) (l : list A)
    (m0 : gmap string string) (k : string) :
  (forall x, x ∈ l -> f x <> k) ->
  fold_left (fun m x => <[f x := g x]> m) l m0 !! k = m0 !! k.
Proof.
  revert m0. induction l as [|x l IH]; intros m0 Hk; simpl; [done|].
  rewrite IH by (intros y Hy; apply Hk; by right).
  apply lookup_insert_ne, Hk. by left.
Qed.

Lemma lookup_fold_insert_NoDup {A} (f g : A -> string) (l : list A)
    (m0 : gmap string string) (x : A) :
  NoDup (List.map f l) -> x ∈ l ->
  fold_left (fun m x => <[f x := g x]> m) l m0 !! f x = Some (g x).
Proof.
  revert m0. induction l as [|y l IH]; intros m0 Hdup Hx; simpl.
  { by apply elem_of_nil in Hx. }
  simpl in Hdup. apply NoDup_cons in Hdup as [Hy Hdup].
  apply elem_of_cons in Hx as [->|Hx]; [|by apply IH].
  rewrite lookup_fold_insert_notin; [apply lookup_insert_eq|].
  intros z Hz Heq. apply Hy. rewrite <- Heq.
  apply list_elem_of_In, in_map, list_elem_of_In, Hz.
Qed.

Lemma lookup_fold_insert_const {A} (f : A -> string) (c : string) (l : list A)
    (m0 : gmap string string) (k : string) :
  fold_left (fun m x => <[f x := c]> m) l m0 !! k
    = if decide (k ∈ List.map f l) then Some c else m0 !! k.
Proof.
  revert m0. induction l as [|y l IH]; intros m0; simpl; [done|].
  rewrite IH. destruct (decide (k ∈ List.map f l)) as [Hin|Hnotin].
  - rewrite decide_True; [done|]. by right.
  - destruct (decide (f y = k)) as [<-|Hne].
    + rewrite decide_True by (by left). apply lookup_insert_eq.
    + rewrite decide_False; [by apply lookup_insert_ne|].
      intros [?|?]%elem_of_cons; congruence.
Qed.

(** The labels [addLabelsAndAnnotations] builds always hold the marker
    for legacy routing with the value "true" and, for every channel, the
    contact label of its name with the value "true", whatever the tags
    of the alert are. *)
Theorem addLabelsAndAnnotations_routing (alert : Alert) (dashboardUID : string)
    (channels : list AlertNotification) (w : World E) :
  exists lbls annotations w',
    addLabelsAndAnnotations alert dashboardUID channels w
      = (Returned (lbls, annotations), w')
    /\ lbls !! MigratedUseLegacyChannelsLabel = Some "true"
    /\ forall c, c ∈ channels ->
         lbls !! contactLabel (channel_Name c) = Some "true".
Proof.
  unfold addLabelsAndAnnotations.
  destruct (call_run (MigrateTmpl (Message alert)) w) as (message & w' & Hrun & _).
  rewrite (bind_Returned _ _ _ _ _ Hrun). unfold ret.
  do 3 eexists. split; [reflexivity|]. split.
  - rewrite (lookup_fold_insert_const
               (fun c => contactLabel (channel_Name c)) "true").
    destruct (decide _); [done|]. apply lookup_insert_eq.
  - intros c Hc.
    rewrite (lookup_fold_insert_const
               (fun c => contactLabel (channel_Name c)) "true").
    rewrite decide_True; [done|].
    apply list_elem_of_In.
    apply (in_map (fun c => contactLabel (channel_Name c))).
    by apply list_elem_of_In.
Qed.

(** A tag of the alert is a label of the rule, with its value, when no
    other tag has its key and its key is neither the marker for legacy
    routing nor the contact label of a channel. *)
Theorem addLabelsAndAnnotations_tags (alert : Alert) (dashboardUID : string)
    (channels : list AlertNotification) (w : World E) (t : Tag) :
  t ∈ GetTagsFromSettings alert ->
  NoDup (List.map tag_Key (GetTagsFromSettings alert)) ->
  tag_Key t <> MigratedUseLegacyChannelsLabel ->
  (forall c, c ∈ channels -> contactLabel (channel_Name c) <> tag_Key t) ->
  exists lbls annotations w',
    addLabelsAndAnnotations alert dashboardUID channels w
      = (Returned (lbls, annotations), w')
    /\ lbls !! tag_Key t = Some (tag_Value t).
Proof.
  intros Ht Hdup Hmarker Hcontact.
  unfold addLabelsAndAnnotations.
  destruct (call_run (MigrateTmpl (Message alert)) w) as (message & w' & Hrun & _).
  rewrite (bind_Returned _ _ _ _ _ Hrun). unfold ret.
  do 3 eexists. split; [reflexivity|].
  rewrite (lookup_fold_insert_notin
             (fun c => contactLabel (channel_Name c)) (fun _ => "true"))
    by done.
  rewrite lookup_insert_ne by done.
  by apply (lookup_fold_insert_NoDup tag_Key tag_Value).
Qed.

(** *** More on the assembler *)

Lemma transNoData_table_run (s : string) (w : World E) :
  exists w', transNoData s w = (Returned (noDataTable s), w') /\ quiet w w'.
Proof.
  clear - s w.
  unfold transNoData, noDataTable, NoDataSetOK, NoDataSetNoData,
    NoDataSetAlerting, NoDataKeepState.
  case_eqb; try (eexists; split; [reflexivity|apply quiet_refl]).
  rewrite !decide_False by intuition congruence.
  eexists. split; [reflexivity|apply quiet_log].
Qed.

Lemma transExecErr_table_run (s : string) (w : World E) :
  exists w', transExecErr s w = (Returned (execErrTable s), w') /\ quiet w w'.
Proof.
  clear - s w.
  unfold transExecErr, execErrTable, ExecutionErrorSetOk,
    ExecutionErrorSetAlerting, ExecutionErrorKeepState.
  case_eqb; try (eexists; split; [reflexivity|apply quiet_refl]).
  rewrite !decide_False by intuition congruence.
  eexists. split; [reflexivity|apply quiet_log].
Qed.

(** The labels and the annotations [addLabelsAndAnnotations] builds. *)
Definition labels_of (alert : Alert) (channels : list AlertNotification)
    : gmap string string :=
  fold_left (fun lbls c => <[contactLabel (channel_Name c) := "true"]> lbls)
    channels
    (<[MigratedUseLegacyChannelsLabel := "true"]>
       (fold_left (fun lbls t => <[tag_Key t := tag_Value t]> lbls)
          (GetTagsFromSettings alert) ∅)).

Definition annotations_of (alert : Alert) (dashboardUID message : string)
    : gmap string string :=
  <[MigratedMessageAnnotation := message]>
    (<[MigratedAlertIdAnnotation := pretty (ID alert)]>
       (<[PanelIDAnnotation := pretty (PanelID alert)]>
          (<[DashboardUIDAnnotation := dashboardUID]> ∅))).

Lemma addLabelsAndAnnotations_run (alert : Alert) (dashboardUID : string)
    (channels : list AlertNotification) (w : World E) :
  exists w',
    addLabelsAndAnnotations alert dashboardUID channels w
      = (Returned (labels_of alert channels,
                   annotations_of alert dashboardUID
                     (MigrateTmpl (Message alert) (ext w)).1), w')
    /\ trace w' = trace w.
Proof.
  unfold addLabelsAndAnnotations, labels_of, annotations_of, bind, call, ret.
  destruct (MigrateTmpl (Message alert) (ext w)) as [message e'].
  by eexists.
Qed.

(** The rule [migrateAlert] assembles, before the label for silences. *)
Definition assembled_rule (alert : Alert) (info : DashboardUpgradeInfo)
    (parsedSettings : dashAlertSettings) (cond : condition)
    (lbls annotations : gmap string string) (data : list AlertQuery)
    (name uid ruleGroup : string) (updated : Z) : AlertRule :=
  {| rule_OrgID := OrgID alert;
     rule_Title := name;
     rule_UID := uid;
     rule_Condition := cond_Condition cond;
     rule_Data := data;
     rule_IntervalSeconds := ruleAdjustInterval (Frequency alert);
     rule_Version := 1;
     rule_NamespaceUID := NewFolderUID info;
     rule_DashboardUID := Some (DashboardUID info);
     rule_PanelID := Some (PanelID alert);
     rule_RuleGroup := ruleGroup;
     rule_For := For alert;
     rule_Updated := updated;
     rule_Annotations := annotations;
     rule_Labels := lbls;
     rule_RuleGroupIndex := 1;
     rule_IsPaused := bool_decide (State alert = "paused");
     rule_NoDataState := noDataTable (NoDataState_ parsedSettings);
     rule_ExecErrState := execErrTable (ExecutionErrorState_ parsedSettings) |}.

(** The rule with the label that silences match. *)
Definition labelled (ar : AlertRule) : AlertRule :=
  with_Label ar (getLabelForSilenceMatching (rule_UID ar)).1
    (getLabelForSilenceMatching (rule_UID ar)).2.

Lemma migrateAlert_silences_labelled (parsedSettings : dashAlertSettings)
    (ar0 : AlertRule) (w : World E) :
  exists w', migrateAlert_silences parsedSettings ar0 w
             = (Returned (Ok (labelled ar0)), w').
Proof.
  destruct (migrateAlert_silences_run parsedSettings ar0 w)
    as (ar & w' & Hrun & _).
  exists w'. rewrite Hrun. do 3 f_equal.
  unfold migrateAlert_silences, labelled in *.
  destruct (getLabelForSilenceMatching (rule_UID ar0)) as [n v].
  unfold bind, ret in Hrun.
  repeat match type of Hrun with
  | context [match ?c ?x with _ => _ end] => destruct (c x) as [[?|?] ?]
  end; by simplify_eq.
Qed.

(** How the last part of [migrateAlert] ends: with the error of the
    title deduplicator, with the panic of [groupName], or with the
    labelled rule. *)
Definition assemble_end (alert : Alert) (info : DashboardUpgradeInfo)
    (parsedSettings : dashAlertSettings) (cond : condition)
    (lbls annotations : gmap string string) (data : list AlertQuery)
    (w : World E) (o : Outcome (Result AlertRule)) : Prop :=
  match (Deduplicate (NewFolderUID info) (Name alert) (ext w)).1 with
  | Err err => o = Returned (Err err)
  | Ok name =>
      match groupName (ruleAdjustInterval (Frequency alert)) (DashboardName info) with
      | Panicked msg => o = Panicked msg
      | Returned ruleGroup =>
          exists uid updated,
            o = Returned (Ok (labelled
                  (assembled_rule alert info parsedSettings cond lbls annotations
                     data name uid ruleGroup updated)))
      end
  end.

Lemma migrateAlert_assemble_end (alert : Alert) (info : DashboardUpgradeInfo)
    (parsedSettings : dashAlertSettings) (cond : condition)
    (lbls annotations : gmap string string) (data : list AlertQuery)
    (w : World E) :
  exists o w',
    migrateAlert_assemble alert info parsedSettings cond lbls annotations data w
      = (o, w')
    /\ assemble_end alert info parsedSettings cond lbls annotations data w o.
Proof.
  unfold migrateAlert_assemble, assemble_end.
  destruct (call_run (Deduplicate (NewFolderUID info) (Name alert)) w)
    as (name & w1 & Hrun1 & _ & Hcall1).
  rewrite (bind_Returned _ _ _ _ _ Hrun1), <- Hcall1. simpl.
  destruct name as [name|err]; [|by do 2 eexists].
  assert (exists w2,
    (if decide (name <> Name alert) then
       log_Info
         ("Alert rule title modified to be unique within the folder and fit within the maximum length of "
            +:+ pretty AlertDefinitionMaxTitleLength)
         [("old", VString (Name alert)); ("new", VString name)]
     else ret tt) w1 = (Returned tt, w2)) as (w2 & Hrun2).
  { destruct (decide _); by eexists. }
  rewrite (bind_Returned _ _ _ _ _ Hrun2).
  destruct (call_run GenerateShortUID w2) as (uid & w3 & Hrun3 & _).
  rewrite (bind_Returned _ _ _ _ _ Hrun3).
  destruct (groupName (ruleAdjustInterval (Frequency alert)) (DashboardName info))
    as [ruleGroup|msg] eqn:Hgroup; [|by do 2 eexists].
  rewrite (bind_Returned _ _ w3 w3 ruleGroup) by done.
  destruct (call_run time_Now_UTC w3) as (updated & w4 & Hrun4 & _).
  rewrite (bind_Returned _ _ _ _ _ Hrun4).
  destruct (transNoData_table_run (NoDataState_ parsedSettings) w4)
    as (w5 & Hrun5 & _).
  rewrite (bind_Returned _ _ _ _ _ Hrun5).
  destruct (transExecErr_table_run (ExecutionErrorState_ parsedSettings) w5)
    as (w6 & Hrun6 & _).
  rewrite (bind_Returned _ _ _ _ _ Hrun6).
  match goal with
  | |- context [migrateAlert_silences parsedSettings ?ar0 w6] =>
      destruct (migrateAlert_silences_labelled parsedSettings ar0 w6) as (w7 & Hrun7)
  end.
  do 2 eexists. split; [exact Hrun7|]. by exists uid, updated.
Qed.

(** How [migrateAlert] ends, stage by stage. *)
Definition migrate_end (alert : Alert) (info : DashboardUpgradeInfo)
    (w : World E) (o : Outcome (Result AlertRule)) : Prop :=
  match json_Marshal_Settings (alert_Settings alert) with
  | Err err => o = Returned (Err (Wrapped "get settings" err))
  | Ok rawSettings =>
      match json_Unmarshal_Settings rawSettings with
      | Err err => o = Returned (Err (Wrapped "parse settings" err))
      | Ok parsedSettings =>
          match (transConditions parsedSettings (OrgID alert) (ext w)).1 with
          | Err err => o = Returned (Err (Wrapped "transform conditions" err))
          | Ok cond =>
              exists channels w2 w3 data w4,
                trace w2 = trace w3
                /\ migrateAlertRuleQueries (cond_Data cond) w3 = (Returned data, w4)
                /\ match data with
                   | Err err => o = Returned (Err (Wrapped "queries" err))
                   | Ok data =>
                       assemble_end alert info parsedSettings cond
                         (labels_of alert channels)
                         (annotations_of alert (DashboardUID info)
                            (MigrateTmpl (Message alert) (ext w2)).1)
                         data w4 o
                   end
          end
      end
  end.

Lemma migrateAlert_end (alert : Alert) (info : DashboardUpgradeInfo)
    (w : World E) :
  exists o w', migrateAlert alert info w = (o, w') /\ migrate_end alert info w o.
Proof.
  unfold migrateAlert, migrate_end.
  rewrite (bind_Returned _ _ w
             (mkWorld (ext w)
                (trace w ++ [Logged LvlDebug "Migrating alert rule to Unified Alerting" []]))
             tt) by done.
  set (w0 := mkWorld _ _).
  destruct (json_Marshal_Settings (alert_Settings alert)) as [rawSettings|err];
    [|by do 2 eexists].
  destruct (json_Unmarshal_Settings rawSettings) as [parsedSettings|err];
    [|by do 2 eexists].
  destruct (call_run (transConditions parsedSettings (OrgID alert)) w0)
    as (cond & w1 & Hrun1 & _ & Hcall1).
  rewrite (bind_Returned _ _ _ _ _ Hrun1).
  change (ext w0) with (ext w) in Hcall1. rewrite <- Hcall1. simpl.
  destruct cond as [cond|err]; [|by do 2 eexists].
  destruct (extractChannels_loop_run (Notifications parsedSettings) [] w1)
    as (channels & w2 & Hrun2 & _).
  rewrite (bind_Returned _ _ _ _ _ Hrun2).
  destruct (addLabelsAndAnnotations_run alert (DashboardUID info) channels w2)
    as (w3 & Hrun3 & Ht3).
  rewrite (bind_Returned _ _ _ _ _ Hrun3).
  destruct (migrateAlertRuleQueries_run (cond_Data cond) w3)
    as (data & w4 & Hrun4 & _).
  rewrite (bind_Returned _ _ _ _ _ Hrun4).
  destruct data as [data|err].
  - destruct (migrateAlert_assemble_end alert info parsedSettings cond
                (labels_of alert channels)
                (annotations_of alert (DashboardUID info)
                   (MigrateTmpl (Message alert) (ext w2)).1) data w4)
      as (o & w' & Hrun & Hend).
    exists o, w'. split; [exact Hrun|].
    by exists channels, w2, w3, (Ok data), w4.
  - do 2 eexists. split; [reflexivity|].
    by exists channels, w2, w3, (Err err), w4.
Qed.

Ltac end_of_run Hrun :=
  match type of Hrun with
  | migrateAlert ?alert ?info ?w = (?o, ?w') =>
      let o1 := fresh "o" in
      let w1 := fresh "w" in
      let Hrun1 := fresh "Hrun" in
      let Hend := fresh "Hend" in
      destruct (migrateAlert_end alert info w) as (o1 & w1 & Hrun1 & Hend);
      rewrite Hrun in Hrun1; injection Hrun1 as <- <-;
      unfold migrate_end in Hend
  end.

(** The rule a run of [migrateAlert] returns has the organisation, panel
    and "for" duration of the alert, the folder and dashboard of the
    upgrade info, version 1 and group index 1; its interval is the
    adjusted frequency and its group is the group name of that interval
    and the dashboard title; it is paused exactly when the state of the
    alert is "paused"; its two states are the translations of the two
    options of the parsed settings; and its title is a title the
    deduplicator returned for the name of the alert in the folder. *)
Theorem migrateAlert_rule_fields (alert : Alert) (info : DashboardUpgradeInfo)
    (w w' : World E) (ar : AlertRule) :
  migrateAlert alert info w = (Returned (Ok ar), w') ->
  exists rawSettings parsedSettings,
    json_Marshal_Settings (alert_Settings alert) = Ok rawSettings
    /\ json_Unmarshal_Settings rawSettings = Ok parsedSettings
    /\ rule_OrgID ar = OrgID alert
    /\ rule_PanelID ar = Some (PanelID alert)
    /\ rule_For ar = For alert
    /\ rule_NamespaceUID ar = NewFolderUID info
    /\ rule_DashboardUID ar = Some (DashboardUID info)
    /\ rule_Version ar = 1
    /\ rule_RuleGroupIndex ar = 1
    /\ rule_IntervalSeconds ar = ruleAdjustInterval (Frequency alert)
    /\ groupName (ruleAdjustInterval (Frequency alert)) (DashboardName info)
         = Returned (rule_RuleGroup ar)
    /\ rule_IsPaused ar = bool_decide (State alert = "paused")
    /\ rule_NoDataState ar = noDataTable (NoDataState_ parsedSettings)
    /\ rule_ExecErrState ar = execErrTable (ExecutionErrorState_ parsedSettings)
    /\ exists e, (Deduplicate (NewFolderUID info) (Name alert) e).1
                 = Ok (rule_Title ar).
Proof.
  intros Hrun. end_of_run Hrun.
  destruct (json_Marshal_Settings (alert_Settings alert)) as [rawSettings|err];
    [|done].
  destruct (json_Unmarshal_Settings rawSettings) as [parsedSettings|err] eqn:Hps;
    [|done].
  destruct (transConditions parsedSettings (OrgID alert) (ext w)).1
    as [cond|err]; [|done].
  destruct Hend as (channels & w2 & w3 & data & w4 & _ & _ & Hend).
  destruct data as [data|err]; [|done].
  unfold assemble_end in Hend.
  destruct (Deduplicate (NewFolderUID info) (Name alert) (ext w4)).1
    as [name|err] eqn:Hname; [|done].
  destruct (groupName (ruleAdjustInterval (Frequency alert)) (DashboardName info))
    as [ruleGroup|msg]; [|done].
  destruct Hend as (uid & updated & [= ->]).
  exists rawSettings, parsedSettings. simpl.
  repeat split; try done. by exists (ext w4).
Qed.

(** The queries of the rule a run of [migrateAlert] returns are the
    queries of the translated condition, one for one and in order, with
    at most their models repaired; and the condition of the rule is the
    condition reference of the translation. *)
Theorem migrateAlert_rule_queries (alert : Alert) (info : DashboardUpgradeInfo)
    (w w' : World E) (ar : AlertRule) :
  migrateAlert alert info w = (Returned (Ok ar), w') ->
  exists rawSettings parsedSettings cond,
    json_Marshal_Settings (alert_Settings alert) = Ok rawSettings
    /\ json_Unmarshal_Settings rawSettings = Ok parsedSettings
    /\ (transConditions parsedSettings (OrgID alert) (ext w)).1 = Ok cond
    /\ rule_Condition ar = cond_Condition cond
    /\ Forall2 same_but_Model (cond_Data cond) (rule_Data ar).
Proof.
  intros Hrun. end_of_run Hrun.
  destruct (json_Marshal_Settings (alert_Settings alert)) as [rawSettings|err];
    [|done].
  destruct (json_Unmarshal_Settings rawSettings) as [parsedSettings|err] eqn:Hps;
    [|done].
  destruct (transConditions parsedSettings (OrgID alert) (ext w)).1
    as [cond|err] eqn:Hcond; [|done].
  destruct Hend as (channels & w2 & w3 & data & w4 & _ & Hdata & Hend).
  destruct data as [data|err]; [|done].
  unfold assemble_end in Hend.
  destruct (Deduplicate (NewFolderUID info) (Name alert) (ext w4)).1
    as [name|err]; [|done].
  destruct (groupName (ruleAdjustInterval (Frequency alert)) (DashboardName info))
    as [ruleGroup|msg]; [|done].
  destruct Hend as (uid & updated & [= ->]).
  exists rawSettings, parsedSettings, cond. simpl. repeat split; try done.
  destruct (migrateAlertRuleQueries_run (cond_Data cond) w3)
    as (r & w5 & Hrun5 & _ & Hr).
  rewrite Hdata in Hrun5. injection Hrun5 as <- <-. destruct Hr as [Hout _].
  eapply Forall2_impl; [exact Hout|]. apply query_repaired_same.
Qed.

(** The rule a run of [migrateAlert] returns has annotations under the
    four fixed keys and no other; and, when the label for silences has
    another name than the marker for legacy routing, its labels hold
    that marker with the value "true". *)
Theorem migrateAlert_rule_marks (alert : Alert) (info : DashboardUpgradeInfo)
    (w w' : World E) (ar : AlertRule) :
  migrateAlert alert info w = (Returned (Ok ar), w') ->
  dom (rule_Annotations ar)
    = {[DashboardUIDAnnotation; PanelIDAnnotation;
        MigratedAlertIdAnnotation; MigratedMessageAnnotation]}
  /\ ((getLabelForSilenceMatching (rule_UID ar)).1 <> MigratedUseLegacyChannelsLabel ->
      rule_Labels ar !! MigratedUseLegacyChannelsLabel = Some "true").
Proof.
  intros Hrun. end_of_run Hrun.
  destruct (json_Marshal_Settings (alert_Settings alert)) as [rawSettings|err];
    [|done].
  destruct (json_Unmarshal_Settings rawSettings) as [parsedSettings|err];
    [|done].
  destruct (transConditions parsedSettings (OrgID alert) (ext w)).1
    as [cond|err]; [|done].
  destruct Hend as (channels & w2 & w3 & data & w4 & _ & _ & Hend).
  destruct data as [data|err]; [|done].
  unfold assemble_end in Hend.
  destruct (Deduplicate (NewFolderUID info) (Name alert) (ext w4)).1
    as [name|err]; [|done].
  destruct (groupName (ruleAdjustInterval (Frequency alert)) (DashboardName info))
    as [ruleGroup|msg]; [|done].
  destruct Hend as (uid & updated & [= ->]). simpl. split.
  - unfold annotations_of. rewrite !dom_insert_L, dom_empty_L.
    apply set_eq. intros k.
    rewrite !elem_of_union, !elem_of_singleton, elem_of_empty.
    repeat match goal with H : _ |- _ => clear H end. tauto.
  - intros Hname. rewrite lookup_insert_ne by done. unfold labels_of.
    rewrite (lookup_fold_insert_const
               (fun c => contactLabel (channel_Name c)) "true").
    destruct (decide _); [done|]. apply lookup_insert_eq.
Qed.

Lemma groupName_room (interval : Z) (dashboardTitle : string) :
  Z.of_nat (String.length (panelSuffix interval)) <= AlertRuleMaxRuleGroupNameLength ->
  exists name, groupName interval dashboardTitle = Returned name.
Proof.
  intros Hroom. unfold groupName, truncate. fold (panelSuffix interval).
  destruct (Z.gtb_spec (Z.of_nat (String.length dashboardTitle))
              (AlertRuleMaxRuleGroupNameLength
                 - Z.of_nat (String.length (panelSuffix interval)))).
  - destruct (Z.ltb_spec (AlertRuleMaxRuleGroupNameLength
                 - Z.of_nat (String.length (panelSuffix interval))) 0);
      [lia|by eexists].
  - by eexists.
Qed.

(** When the maximum length of a group name leaves room for the suffix
    of the adjusted interval, [migrateAlert] never panics: it returns a
    rule or an error. *)
Theorem migrateAlert_returns (alert : Alert) (info : DashboardUpgradeInfo)
    (w : World E) :
  Z.of_nat (String.length (panelSuffix (ruleAdjustInterval (Frequency alert))))
    <= AlertRuleMaxRuleGroupNameLength ->
  exists r w', migrateAlert alert info w = (Returned r, w').
Proof.
  intros Hfit.
  destruct (migrateAlert_end alert info w) as (o & w' & Hrun & Hend).
  destruct o as [r|msg]; [by exists r, w'|]. exfalso.
  unfold migrate_end in Hend.
  destruct (json_Marshal_Settings (alert_Settings alert)) as [rawSettings|e];
    [|done].
  destruct (json_Unmarshal_Settings rawSettings) as [parsedSettings|e]; [|done].
  destruct (transConditions parsedSettings (OrgID alert) (ext w)).1
    as [cond|e]; [|done].
  destruct Hend as (channels & w2 & w3 & data & w4 & _ & _ & Hend).
  destruct data as [data|e]; [|done].
  unfold assemble_end in Hend.
  destruct (Deduplicate (NewFolderUID info) (Name alert) (ext w4)).1
    as [name|e]; [|done].
  destruct (groupName_room (ruleAdjustInterval (Frequency alert))
              (DashboardName info) Hfit) as (name' & Hgroup).
  rewrite Hgroup in Hend. by destruct Hend as (uid & updated & [=]).
Qed.

(** *** Edge cases of the query repairer *)

Lemma isBothPrometheus_mdelete_hide (m : GoMap) :
  isBothPrometheus (mdelete "hide" m) = isBothPrometheus m.
Proof.
  destruct m as [|entries]; [done|].
  unfold isBothPrometheus, isPrometheus, isPrometheusQuery. simpl.
  by rewrite !lookup_delete_ne.
Qed.

Lemma query_repaired_at (data out : list AlertQuery) (i : nat) (d : AlertQuery)
    (w w' : World E) :
  migrateAlertRuleQueries data w = (Returned (Ok out), w') ->
  data !! i = Some d ->
  exists d', out !! i = Some d' /\ query_repaired d d'.
Proof.
  intros Hrun Hi.
  destruct (migrateAlertRuleQueries_run data w) as (r & w1 & Hrun1 & _ & Hr).
  rewrite Hrun in Hrun1. injection Hrun1 as <- <-. destruct Hr as [Hout _].
  by apply (Forall2_lookup_l _ _ _ _ _ Hout Hi).
Qed.

(** A query that is no expression and whose model is a JSON object with
    a "hide" key, but with no expanded Graphite target and no
    'Both' Prometheus flags, comes out with a model that holds the same
    key-value mapping less the "hide" key. *)
Theorem migrateAlertRuleQueries_strips_hide (data out : list AlertQuery)
    (i : nat) (d : AlertQuery) (members : list (string * value))
    (w w' : World E) :
  migrateAlertRuleQueries data w = (Returned (Ok out), w') ->
  data !! i = Some d ->
  DatasourceUID d <> expressionDatasourceUID ->
  Model d = Wellformed (JObject members) ->
  TargetFullModelField <> "hide" ->
  members_to_map members !! TargetFullModelField = None ->
  isBothPrometheus (MkMap (members_to_map members)) = false ->
  exists d' members',
    out !! i = Some d'
    /\ Model d' = Wellformed (JObject members')
    /\ members_to_map members' = delete "hide" (members_to_map members).
Proof.
  intros Hrun Hi Hquery Hmodel Hne Hfull Hboth.
  destruct (query_repaired_at _ _ _ _ _ _ Hrun Hi) as (d' & Hi' & Hrep).
  unfold query_repaired in Hrep. rewrite decide_False in Hrep by done.
  destruct Hrep as (m & r & Hm & Hr & ->).
  rewrite Hmodel in Hm. injection Hm as <-.
  assert (repairedMap (MkMap (members_to_map members))
          = MkMap (delete "hide" (members_to_map members))) as Hsame.
  { unfold repairedMap, graphiteFixed. simpl.
    rewrite lookup_delete_ne, Hfull by done. unfold prometheusFixed.
    change (MkMap (delete "hide" (members_to_map members)))
      with (mdelete "hide" (MkMap (members_to_map members))).
    by rewrite isBothPrometheus_mdelete_hide, Hboth. }
  rewrite Hsame in Hr.
  destruct (Marshal_map_wf (MkMap (delete "hide" (members_to_map members))))
    as (r' & Hr' & Hobj).
  { apply (mdelete_wf "hide" (MkMap (members_to_map members))).
    apply members_to_map_wf. }
  rewrite Hr in Hr'. injection Hr' as <-.
  destruct Hobj as (members' & -> & Heq).
  by exists (with_Model d (Wellformed (JObject members'))), members'.
Qed.

(** A query that is no expression and whose model is the literal [null]
    is no error: it comes out as it is. *)
Theorem migrateAlertRuleQueries_null_model (data out : list AlertQuery)
    (i : nat) (d : AlertQuery) (w w' : World E) :
  migrateAlertRuleQueries data w = (Returned (Ok out), w') ->
  data !! i = Some d ->
  Model d = Wellformed JNull ->
  out !! i = Some d.
Proof.
  intros Hrun Hi Hmodel.
  destruct (query_repaired_at _ _ _ _ _ _ Hrun Hi) as (d' & Hi' & Hrep).
  rewrite Hi'. f_equal. unfold query_repaired in Hrep.
  destruct (decide _) as [_|_]; [done|].
  destruct Hrep as (m & r & Hm & Hr & ->).
  rewrite Hmodel in Hm. injection Hm as <-.
  injection Hr as <-. destruct d. simpl in *. by subst.
Qed.

Lemma migrateAlertRuleQueries_loop_error (data result : list AlertQuery)
    (w w' : World E) (err : error) :
  migrateAlertRuleQueries_loop data result w = (Returned (Err err), w') ->
  exists before d after,
    data = before ++ d :: after
    /\ ~ Exists rejected before
    /\ DatasourceUID d <> expressionDatasourceUID
    /\ Unmarshal_map (Model d) = Err err.
Proof.
  revert result w. induction data as [|d data IH]; intros result w; simpl.
  { by intros [=]. }
  destruct (decide (DatasourceUID d = expressionDatasourceUID)) as [Hexpr|Hquery].
  - intros Hrun. destruct (IH _ _ Hrun) as (before & d0 & after & -> & Hok & Hd0).
    exists (d :: before), d0, after. split; [done|]. split; [|done].
    intros [[? _]|?]%Exists_cons; done.
  - pose proof (Unmarshal_map_decodable (Model d)) as Hdec.
    destruct (Unmarshal_map (Model d)) as [m|err0] eqn:Hm.
    + destruct Hdec as [Hdec Hwf].
      destruct (fixPrometheusBothTypeQuery_run (graphiteFixed (mdelete "hide" m)) w)
        as (w1 & Hfix & _).
      destruct (Marshal_map_wf (repairedMap m) (repairedMap_wf m Hwf)) as (r & Hr & _).
      unfold bind at 1. rewrite fixGraphiteReferencedSubQueries_run.
      unfold bind at 1. rewrite Hfix. fold (repairedMap m). rewrite Hr.
      intros Hrun. destruct (IH _ _ Hrun) as (before & d0 & after & -> & Hok & Hd0).
      exists (d :: before), d0, after. split; [done|]. split; [|done].
      intros [[_ ?]|?]%Exists_cons; [congruence|done].
    + intros [= <- <-]. exists [], d, data. split; [done|]. split; [|done].
      by intros ?%Exists_nil.
Qed.

(** The error [migrateAlertRuleQueries] returns is the error of decoding
    the model of the first query that is no expression and whose model
    does not decode; the queries before it are all accepted. *)
Theorem migrateAlertRuleQueries_first_error (data : list AlertQuery)
    (w w' : World E) (err : error) :
  migrateAlertRuleQueries data w = (Returned (Err err), w') ->
  exists before d after,
    data = before ++ d :: after
    /\ ~ Exists rejected before
    /\ DatasourceUID d <> expressionDatasourceUID
    /\ Unmarshal_map (Model d) = Err err.
Proof. apply migrateAlertRuleQueries_loop_error. Qed.

(** *** The silences of a migrated rule *)

Lemma migrateAlert_assemble_uid (alert : Alert) (info : DashboardUpgradeInfo)
    (parsedSettings : dashAlertSettings) (cond : condition)
    (lbls annotations : gmap string string) (data : list AlertQuery)
    (w : World E) :
  exists o w',
    migrateAlert_assemble alert info parsedSettings cond lbls annotations data w
      = (o, w')
    /\ forall ar, o = Returned (Ok ar) ->
         exists e, rule_UID ar = (GenerateShortUID e).1.
Proof.
  unfold migrateAlert_assemble.
  destruct (call_run (Deduplicate (NewFolderUID info) (Name alert)) w)
    as (name & w1 & Hrun1 & _).
  rewrite (bind_Returned _ _ _ _ _ Hrun1).
  destruct name as [name|err]; [|by do 2 eexists].
  assert (exists w2,
    (if decide (name <> Name alert) then
       log_Info
         ("Alert rule title modified to be unique within the folder and fit within the maximum length of "
            +:+ pretty AlertDefinitionMaxTitleLength)
         [("old", VString (Name alert)); ("new", VString name)]
     else ret tt) w1 = (Returned tt, w2)) as (w2 & Hrun2).
  { destruct (decide _); by eexists. }
  rewrite (bind_Returned _ _ _ _ _ Hrun2).
  destruct (call_run GenerateShortUID w2) as (uid & w3 & Hrun3 & _ & Hcall3).
  rewrite (bind_Returned _ _ _ _ _ Hrun3).
  destruct (groupName (ruleAdjustInterval (Frequency alert)) (DashboardName info))
    as [ruleGroup|msg] eqn:Hgroup; [|by do 2 eexists].
  rewrite (bind_Returned _ _ w3 w3 ruleGroup) by done.
  destruct (call_run time_Now_UTC w3) as (updated & w4 & Hrun4 & _).
  rewrite (bind_Returned _ _ _ _ _ Hrun4).
  destruct (transNoData_run (NoDataState_ parsedSettings) w4)
    as (noDataState & w5 & Hrun5 & _).
  rewrite (bind_Returned _ _ _ _ _ Hrun5).
  destruct (transExecErr_run (ExecutionErrorState_ parsedSettings) w5)
    as (execErrState & w6 & Hrun6 & _).
  rewrite (bind_Returned _ _ _ _ _ Hrun6).
  match goal with
  | |- context [migrateAlert_silences parsedSettings ?ar0 w6] =>
      destruct (migrateAlert_silences_labelled parsedSettings ar0 w6) as (w7 & Hrun7)
  end.
  do 2 eexists. split; [exact Hrun7|].
  intros ar [= <-]. exists (ext w2). simpl. by rewrite <- Hcall3.
Qed.

Lemma migrateAlert_uid (alert : Alert) (info : DashboardUpgradeInfo)
    (w : World E) :
  exists o w',
    migrateAlert alert info w = (o, w')
    /\ forall ar, o = Returned (Ok ar) ->
         exists e, rule_UID ar = (GenerateShortUID e).1.
Proof.
  unfold migrateAlert.
  rewrite (bind_Returned _ _ w
             (mkWorld (ext w)
                (trace w ++ [Logged LvlDebug "Migrating alert rule to Unified Alerting" []]))
             tt) by done.
  set (w0 := mkWorld _ _).
  destruct (json_Marshal_Settings (alert_Settings alert)) as [rawSettings|err];
    [|by do 2 eexists].
  destruct (json_Unmarshal_Settings rawSettings) as [parsedSettings|err];
    [|by do 2 eexists].
  destruct (call_run (transConditions parsedSettings (OrgID alert)) w0)
    as (cond & w1 & Hrun1 & _).
  rewrite (bind_Returned _ _ _ _ _ Hrun1).
  destruct cond as [cond|err]; [|by do 2 eexists].
  destruct (extractChannels_loop_run (Notifications parsedSettings) [] w1)
    as (channels & w2 & Hrun2 & _).
  rewrite (bind_Returned _ _ _ _ _ Hrun2).
  destruct (addLabelsAndAnnotations_run alert (DashboardUID info) channels w2)
    as (w3 & Hrun3 & _).
  rewrite (bind_Returned _ _ _ _ _ Hrun3).
  destruct (migrateAlertRuleQueries_run (cond_Data cond) w3)
    as (data & w4 & Hrun4 & _).
  rewrite (bind_Returned _ _ _ _ _ Hrun4).
  destruct data as [data|err]; [|by do 2 eexists].
  apply migrateAlert_assemble_uid.
Qed.

(** The requests made from the two conditions: each kind is there
    exactly when its condition holds, every request is for the rule, and
    there are at most two. *)
Lemma requests_by_option (P Q : Prop) `{!Decision P, !Decision Q}
    (ar : AlertRule) (new : list (SilenceKind * AlertRule)) :
  new = (if decide P then [(ErrorSilence, ar)] else [])
        ++ (if decide Q then [(NoDataSilence, ar)] else []) ->
  ((ErrorSilence, ar) ∈ new <-> P)
  /\ ((NoDataSilence, ar) ∈ new <-> Q)
  /\ (forall kind r, (kind, r) ∈ new -> r = ar)
  /\ (length new <= 2)%nat.
Proof.
  intros ->.
  destruct (decide P) as [HP|HP]; destruct (decide Q) as [HQ|HQ]; simpl;
    (split; [|split; [|split; [|lia]]]).
  all: try (split; [intros Hin|intros Hyes]).
  all: try (intros kind r Hin).
  all: try done.
  all: try (by left).
  all: try (right; by left).
  all: repeat (apply elem_of_cons in Hin as [Hin|Hin];
               [first [discriminate Hin | by injection Hin as -> ->]|]).
  all: by apply elem_of_nil in Hin.
Qed.

(** C7. Let a run of [migrateAlert] return a rule. During the run an
    error silence is asked for if and only if the execution-error option
    of the parsed settings is "keep_state", and a no-data silence if and
    only if the no-data option is "keep_state". Every request is made
    for the returned rule; the identifier of that rule is the one the
    generator of identifiers gave during the run, and the rule carries
    the label for silences made from that identifier. So at most one
    request of each kind is made, none, one or two in all, the error
    silence first. *)
Theorem migrateAlert_silences_iff_keep_state (alert : Alert)
    (info : DashboardUpgradeInfo) (w w' : World E) (ar : AlertRule) :
  migrateAlert alert info w = (Returned (Ok ar), w') ->
  exists rawSettings parsedSettings e new,
    json_Marshal_Settings (alert_Settings alert) = Ok rawSettings
    /\ json_Unmarshal_Settings rawSettings = Ok parsedSettings
    /\ silence_requests (trace w') = silence_requests (trace w) ++ new
    /\ new = (if decide (ExecutionErrorState_ parsedSettings = "keep_state")
              then [(ErrorSilence, ar)] else [])
             ++ (if decide (NoDataState_ parsedSettings = "keep_state")
                 then [(NoDataSilence, ar)] else [])
    /\ ((ErrorSilence, ar) ∈ new
        <-> ExecutionErrorState_ parsedSettings = "keep_state")
    /\ ((NoDataSilence, ar) ∈ new
        <-> NoDataState_ parsedSettings = "keep_state")
    /\ (forall kind r, (kind, r) ∈ new -> r = ar)
    /\ (length new <= 2)%nat
    /\ rule_UID ar = (GenerateShortUID e).1
    /\ rule_Labels ar !! (getLabelForSilenceMatching (rule_UID ar)).1
         = Some (getLabelForSilenceMatching (rule_UID ar)).2.
Proof.
  intros Hrun.
  destruct (migrateAlert_requests_run alert info w) as (o & w1 & Hrun1 & Hreq).
  rewrite Hrun in Hrun1. injection Hrun1 as <- <-.
  destruct Hreq as (rawSettings & parsedSettings & Hraw & Hparsed & Hlabel & Hreq).
  destruct (migrateAlert_uid alert info w) as (o & w1 & Hrun1 & Huid).
  rewrite Hrun in Hrun1. injection Hrun1 as <- <-.
  destruct (Huid ar eq_refl) as [e He].
  exists rawSettings, parsedSettings, e. eexists.
  split; [exact Hraw|]. split; [exact Hparsed|].
  split; [exact Hreq|]. split; [reflexivity|].
  destruct (requests_by_option
              (ExecutionErrorState_ parsedSettings = "keep_state")
              (NoDataState_ parsedSettings = "keep_state") ar _ eq_refl)
    as (Herr & Hnodata & Hscope & Hlen).
  split; [exact Herr|]. split; [exact Hnodata|]. split; [exact Hscope|].
  split; [exact Hlen|]. split; [exact He|exact Hlabel].
Qed.

(** An error [migrateAlert] returns tells the stage that failed, and
    the stages before it succeeded. It is the error of encoding the
    settings wrapped as "get settings"; or the error of decoding the
    encoded settings wrapped as "parse settings"; or the error the
    condition translator returned for the parsed settings, wrapped as
    "transform conditions"; or the error [migrateAlertRuleQueries]
    returned for the queries of the translated condition (the decoding
    error of the first query it rejects), wrapped as "queries"; or, when
    those queries were repaired, the error of the title deduplicator,
    which is returned as it is. *)
Theorem migrateAlert_error_stage (alert : Alert) (info : DashboardUpgradeInfo)
    (w w' : World E) (err : error) :
  migrateAlert alert info w = (Returned (Err err), w') ->
  (exists e, json_Marshal_Settings (alert_Settings alert) = Err e
             /\ err = Wrapped "get settings" e)
  \/ (exists rawSettings e,
        json_Marshal_Settings (alert_Settings alert) = Ok rawSettings
        /\ json_Unmarshal_Settings rawSettings = Err e
        /\ err = Wrapped "parse settings" e)
  \/ (exists rawSettings parsedSettings e,
        json_Marshal_Settings (alert_Settings alert) = Ok rawSettings
        /\ json_Unmarshal_Settings rawSettings = Ok parsedSettings
        /\ (transConditions parsedSettings (OrgID alert) (ext w)).1 = Err e
        /\ err = Wrapped "transform conditions" e)
  \/ (exists rawSettings parsedSettings cond e w3 w4 before d after,
        json_Marshal_Settings (alert_Settings alert) = Ok rawSettings
        /\ json_Unmarshal_Settings rawSettings = Ok parsedSettings
        /\ (transConditions parsedSettings (OrgID alert) (ext w)).1 = Ok cond
        /\ migrateAlertRuleQueries (cond_Data cond) w3 = (Returned (Err e), w4)
        /\ cond_Data cond = before ++ d :: after
        /\ ~ Exists rejected before
        /\ DatasourceUID d <> expressionDatasourceUID
        /\ Unmarshal_map (Model d) = Err e
        /\ err = Wrapped "queries" e)
  \/ (exists rawSettings parsedSettings cond data w3 w4,
        json_Marshal_Settings (alert_Settings alert) = Ok rawSettings
        /\ json_Unmarshal_Settings rawSettings = Ok parsedSettings
        /\ (transConditions parsedSettings (OrgID alert) (ext w)).1 = Ok cond
        /\ migrateAlertRuleQueries (cond_Data cond) w3 = (Returned (Ok data), w4)
        /\ (Deduplicate (NewFolderUID info) (Name alert) (ext w4)).1 = Err err).
Proof.
  intros Hrun. end_of_run Hrun.
  destruct (json_Marshal_Settings (alert_Settings alert)) as [rawSettings|e]
    eqn:Hraw.
  2:{ left. exists e. by injection Hend as ->. }
  right.
  destruct (json_Unmarshal_Settings rawSettings) as [parsedSettings|e]
    eqn:Hparsed.
  2:{ left. exists rawSettings, e. by injection Hend as ->. }
  right.
  destruct (transConditions parsedSettings (OrgID alert) (ext w)).1
    as [cond|e] eqn:Hcond.
  2:{ left. exists rawSettings, parsedSettings, e. by injection Hend as ->. }
  right.
  destruct Hend as (channels & w2 & w3 & data & w4 & _ & Hdata & Hend).
  destruct data as [data|e].
  2:{ left. injection Hend as ->.
      destruct (migrateAlertRuleQueries_loop_error _ _ _ _ _ Hdata)
        as (before & d & after & Hsplit & Hbefore & Hquery & Hdecode).
      by exists rawSettings, parsedSettings, cond, e, w3, w4, before, d, after. }
  right. unfold assemble_end in Hend.
  destruct (Deduplicate (NewFolderUID info) (Name alert) (ext w4)).1
    as [name|e] eqn:Hname.
  2:{ injection Hend as ->.
      by exists rawSettings, parsedSettings, cond, data, w3, w4. }
  destruct (groupName (ruleAdjustInterval (Frequency alert)) (DashboardName info))
    as [ruleGroup|msg]; [|done].
  by destruct Hend as (uid & updated & [=]).
Qed.

End Migration.

(** ** Worked instances

    The constants and collaborators above are fixed to sample values, to
    run the functions on the inputs the specification names. *)

(** One unit of [model.Duration.String]: the closure [f] of the
    Prometheus library, on the milliseconds left and the text so far. *)
Definition duration_unit (unit : string) (mult : Z) (exact : bool)
    (st : Z * string) : Z * string :=
  let '(ms, r) := st in
  if exact && negb (Z.rem ms mult =? 0) then st
  else
    let v := Z.quot ms mult in
    if 0 <? v then (ms - v * mult, r +:+ pretty v +:+ unit) else st.

(** [model.Duration.String] of the Prometheus library, on a duration in
    nanoseconds: "10s", "1m", "1h30m". *)
Definition sample_Duration_String (d : Z) : string :=
  let ms := Z.quot d 1000000 in
  if ms =? 0 then "0s"
  else
    (duration_unit "ms" 1 false
       (duration_unit "s" 1000 false
          (duration_unit "m" (1000 * 60) false
             (duration_unit "h" (1000 * 60 * 60) false
                (duration_unit "d" (1000 * 60 * 60 * 24) false
                   (duration_unit "w" (1000 * 60 * 60 * 24 * 7) true
                      (duration_unit "y" (1000 * 60 * 60 * 24 * 365) true
                         (ms, "")))))))).2.

Definition sample_groupName : Z -> string -> Outcome string :=
  groupName 190 sample_Duration_String.

(** The collaborators keep no state in the samples. *)
Definition sample_world : World unit := mkWorld tt [].

Definition sample_fixGraphite : GoMap -> M unit GoMap :=
  fixGraphiteReferencedSubQueries "targetFull" "target".

Definition sample_migrateAlertRuleQueries
    : list AlertQuery -> M unit (Result (list AlertQuery)) :=
  migrateAlertRuleQueries "__expr__" "targetFull" "target".

(** The query object of the specification, for a datasource type. *)
Definition both_query (type : string) : list (string * value) :=
  [("instant", JBool true); ("range", JBool true);
   ("datasource", JObject [("type", JString type)])].

(** A Graphite query with a raw and an expanded target. *)
Definition graphite_query : list (string * value) :=
  [("refId", JString "B");
   ("target", JString "sumSeries(#A)");
   ("targetFull", JString "sumSeries(app.requests.*)")].

(** A query in the accepted shape. *)
Definition plain_query : list (string * value) :=
  [("refId", JString "A"); ("range", JBool true);
   ("expr", JString "up"); ("datasource", JObject [("type", JString "prometheus")])].

Definition sample_query (members : list (string * value)) : AlertQuery :=
  {| RefID := "A"; QueryType := ""; RelativeTimeRange := (600, 0);
     DatasourceUID := "ds-uid"; Model := Wellformed (JObject members) |}.

(** A query whose model is the JSON literal [null]. *)
Definition null_query : AlertQuery :=
  {| RefID := "A"; QueryType := ""; RelativeTimeRange := (600, 0);
     DatasourceUID := "ds-uid"; Model := Wellformed JNull |}.

(** Sample settings: the document is the pair of the no-data option and
    the execution-error option, and has no condition and no channel. *)
Definition sample_Marshal_Settings (settings : string * string) : Result RawMessage :=
  Ok (Wellformed (JObject [("noDataState", JString settings.1);
                           ("executionErrorState", JString settings.2)])).

Definition sample_Unmarshal_Settings (raw : RawMessage)
    : Result (@dashAlertSettings unit) :=
  match raw with
  | Wellformed (JObject [(_, JString noData); (_, JString execErr)]) =>
      Ok {| NoDataState_ := noData; ExecutionErrorState_ := execErr;
            Conditions := []; Notifications := [] |}
  | _ => Err (External "settings")
  end.

(** A condition translator that succeeds with one query, and one that
    fails, as the translator does for a datasource it cannot find. *)
Definition translator_ok (_ : @dashAlertSettings unit) (orgID : Z) (e : unit)
    : Result condition * unit :=
  (Ok {| cond_Condition := "B"; cond_OrgID := orgID;
         cond_Data := [sample_query plain_query] |}, e).

Definition translator_failing (_ : @dashAlertSettings unit) (_ : Z) (e : unit)
    : Result condition * unit :=
  (Err (External "datasource not found"), e).

Definition sample_migrateAlert
    (transConditions : @dashAlertSettings unit -> Z -> unit -> Result condition * unit)
    : @Alert (string * string) -> DashboardUpgradeInfo -> M unit (Result AlertRule) :=
  migrateAlert "__expr__" "targetFull" "target" 190 190
    "__dashboardUid__" "__panelId__" "__alertId__" "message"
    "__legacy_use_channels__"
    sample_Duration_String
    (fun name => "__contact_" +:+ name +:+ "__")
    (fun uid => ("rule_uid", uid))
    (fun _ => [])
    sample_Marshal_Settings
    sample_Unmarshal_Settings
    (fun tmpl e => (tmpl, e))
    transConditions
    (fun _ e => (None, e))
    (fun _ e => (None, e))
    (fun _ name e => (Ok name, e))
    (fun e => ("u1", e))
    (fun e => (0, e))
    (fun _ e => (None, e))
    (fun _ e => (None, e)).

(** A legacy alert with the given no-data and execution-error options,
    and an empty message. *)
Definition sample_alert (noData execErr : string) : @Alert (string * string) :=
  {| ID := 7; OrgID := 1; PanelID := 3; Name := "CPU High"; Message := "";
     State := "alerting"; Frequency := 60; For := 300;
     alert_Settings := (noData, execErr) |}.

Definition sample_info : DashboardUpgradeInfo :=
  {| DashboardUID := "dash-1"; DashboardName := "Servers";
     NewFolderUID := "folder-1" |}.

(** A dashboard title of 200 bytes. *)
Definition long_title : string :=
  String.concat "" (replicate 20 "dashboard ").

(** ** The properties at the sample inputs *)

(** The values the specification lists for [adjustInterval] are not the
    values of [ruleAdjustInterval]: 23 is rounded down to 20, not to 10. *)
Lemma ruleAdjustInterval_listed_values_differ :
  List.map ruleAdjustInterval [5; 10; 15; 23; 100] <> [10; 10; 10; 10; 100].
Proof. vm_compute. by intros [=]. Qed.

Lemma ruleAdjustInterval_rounds_down_witness :
  in_int64 23
  /\ ruleAdjustInterval 23 = 10 * (23 / 10)
  /\ ruleAdjustInterval 23 <= 23 < ruleAdjustInterval 23 + 10.
Proof.
  assert (in_int64 23) as H by (unfold in_int64; lia).
  split; [exact H|].
  destruct (ruleAdjustInterval_rounds_down 23 H) as (_ & Hlarge & _).
  apply Hlarge. lia.
Defined.

Lemma ruleAdjustInterval_positive_multiple_witness :
  in_int64 (-7)
  /\ 10 <= ruleAdjustInterval (-7)
  /\ ruleAdjustInterval (-7) mod 10 = 0
  /\ in_int64 (ruleAdjustInterval (-7)).
Proof.
  assert (in_int64 (-7)) as H by (unfold in_int64; lia).
  split; [exact H|]. exact (ruleAdjustInterval_positive_multiple (-7) H).
Defined.

Lemma groupName_fits_witness :
  exists truncatedDashboard,
    sample_groupName 60 long_title = Returned (truncatedDashboard +:+ " - 1m")
    /\ String.prefix truncatedDashboard long_title = true
    /\ Z.of_nat (String.length (truncatedDashboard +:+ " - 1m")) = 190.
Proof.
  assert (Z.of_nat (String.length (panelSuffix sample_Duration_String 60)) <= 190)
    as H by (by vm_compute).
  destruct (groupName_fits 190 sample_Duration_String 60 long_title H)
    as (t & Hrun & Hprefix & _ & _ & Hcut).
  exists t. split; [exact Hrun|]. split; [exact Hprefix|].
  apply Hcut. by vm_compute.
Defined.

Lemma fixGraphite_promotes_expanded_witness :
  exists queryData',
    sample_fixGraphite (MkMap (members_to_map graphite_query)) sample_world
      = (Returned queryData', sample_world)
    /\ mget "target" queryData' = Some (Wellformed (JString "sumSeries(app.requests.*)"))
    /\ mget "targetFull" queryData' = None
    /\ mget "refId" queryData' = Some (Wellformed (JString "B")).
Proof.
  destruct (fixGraphite_promotes_expanded (E:=unit) "targetFull" "target"
              (MkMap (members_to_map graphite_query))
              (Wellformed (JString "sumSeries(#A)"))
              (Wellformed (JString "sumSeries(app.requests.*)"))
              sample_world)
    as (queryData' & Hrun & Htarget & Hfull & Hother);
    [done|by vm_compute|by vm_compute|].
  exists queryData'. split; [exact Hrun|]. split; [exact Htarget|].
  split; [exact Hfull|]. by rewrite Hother.
Defined.

Lemma fixPrometheus_both_to_range_witness :
  (exists queryData' w',
     fixPrometheusBothTypeQuery (MkMap (members_to_map (both_query "prometheus")))
       sample_world = (Returned queryData', w')
     /\ mget "instant" queryData' = Some (Wellformed (JBool false))
     /\ mget "range" queryData' = Some (Wellformed (JBool true)))
  /\ (exists w',
        fixPrometheusBothTypeQuery (MkMap (members_to_map (both_query "graphite")))
          sample_world
          = (Returned (MkMap (members_to_map (both_query "graphite"))), w')).
Proof.
  split.
  - destruct (fixPrometheus_both_to_range (E:=unit)
                (MkMap (members_to_map (both_query "prometheus")))
                (Wellformed (JBool true)) (Wellformed (JBool true)) sample_world)
      as (queryData' & w' & Hrun & _ & Hprom & _);
      [by vm_compute|done|by vm_compute|done|].
    exists queryData', w'. split; [exact Hrun|].
    destruct (Hprom (Wellformed (JObject [("type", JString "prometheus")])))
      as (Hinstant & Hrange & _); [by vm_compute|done|].
    by split.
  - destruct (fixPrometheus_both_to_range (E:=unit)
                (MkMap (members_to_map (both_query "graphite")))
                (Wellformed (JBool true)) (Wellformed (JBool true)) sample_world)
      as (queryData' & w' & Hrun & _ & _ & Hother);
      [by vm_compute|done|by vm_compute|done|].
    exists w'. rewrite Hrun, Hother; [done|].
    right. exists (Wellformed (JObject [("type", JString "graphite")])).
    split; [by vm_compute|]. right. right. by exists "graphite".
Defined.

(** *** The sample group name never panics

    With the sample maximum of 190 bytes and the sample humanizer, the
    suffix always fits, so the assumption of the theorem on [groupName]
    holds for every interval. *)

Lemma wrap64_range z : in_int64 (wrap64 z).
Proof.
  unfold in_int64, wrap64.
  pose proof (Z.mod_pos_bound (z + 2 ^ 63) (2 ^ 64) ltac:(lia)). lia.
Qed.

Lemma pretty_N_go_length (k : nat) (x : N) (s : string) :
  (x < 10 ^ N.of_nat k)%N ->
  (String.length (pretty_N_go x s) <= String.length s + k)%nat.
Proof.
  revert x s. induction k as [|k IH]; intros x s Hx.
  - assert (x = 0%N) as -> by (simpl in Hx; lia).
    rewrite pretty_N_go_0. lia.
  - destruct (decide (x = 0%N)) as [->|Hpos].
    { rewrite pretty_N_go_0. lia. }
    rewrite pretty_N_go_step by lia.
    etrans; [apply IH|simpl; lia].
    rewrite Nat2N.inj_succ, N.pow_succ_r' in Hx.
    apply N.Div0.div_lt_upper_bound. lia.
Qed.

Lemma pretty_Z_length (v : Z) :
  0 < v < 10 ^ 13 -> (String.length (pretty v) <= 13)%nat.
Proof.
  intros Hv. destruct v as [|p|p]; [lia| |lia].
  unfold pretty, pretty_Z, pretty, pretty_positive, pretty, pretty_N.
  rewrite decide_False by done.
  apply (pretty_N_go_length 13 (N.pos p) ""). lia.
Qed.

(** A unit of the humanizer leaves a negative or null count alone. *)
Lemma duration_unit_nonpos (unit : string) (mult : Z) (exact : bool)
    (ms : Z) (r : string) :
  0 < mult -> ms <= 0 -> duration_unit unit mult exact (ms, r) = (ms, r).
Proof.
  intros Hmult Hms. unfold duration_unit.
  destruct (exact && negb (Z.rem ms mult =? 0)); [done|].
  assert (Z.quot ms mult <= 0) as Hv.
  { rewrite <- (Z.opp_involutive ms), Z.quot_opp_l by lia.
    pose proof (Z.quot_pos (- ms) mult ltac:(lia) ltac:(lia)). lia. }
  destruct (Z.ltb_spec 0 (Z.quot ms mult)); [lia|done].
Qed.

(** A unit of the humanizer takes a part of a positive count and writes
    at most 13 digits and the name of the unit. *)
Lemma duration_unit_pos (unit : string) (mult : Z) (exact : bool)
    (ms : Z) (r : string) :
  0 < mult -> 0 <= ms < 10 ^ 13 ->
  0 <= (duration_unit unit mult exact (ms, r)).1 < 10 ^ 13
  /\ (String.length (duration_unit unit mult exact (ms, r)).2
      <= String.length r + 13 + String.length unit)%nat.
Proof.
  intros Hmult Hms. unfold duration_unit.
  destruct (exact && negb (Z.rem ms mult =? 0)); [simpl; lia|].
  rewrite Z.quot_div_nonneg by lia.
  pose proof (Z.div_mod ms mult ltac:(lia)) as Hdiv.
  pose proof (Z.mod_pos_bound ms mult Hmult) as Hmod.
  destruct (Z.ltb_spec 0 (ms / mult)) as [Hv|Hv]; [|simpl; lia].
  assert (ms / mult <= ms) by nia.
  simpl. split; [nia|].
  rewrite !length_append.
  pose proof (pretty_Z_length (ms / mult) ltac:(lia)). lia.
Qed.

Lemma sample_Duration_String_length (d : Z) :
  in_int64 d -> (String.length (sample_Duration_String d) <= 99)%nat.
Proof.
  intros Hd. unfold sample_Duration_String.
  set (ms := Z.quot d 1000000).
  destruct (Z.eqb_spec ms 0) as [_|Hne]; [simpl; lia|].
  destruct (Z.le_gt_cases ms 0) as [Hneg|Hpos].
  - rewrite !duration_unit_nonpos by lia. simpl. lia.
  - assert (0 <= ms < 10 ^ 13) as Hms.
    { assert (0 <= d) as Hd0.
      { destruct (Z.le_gt_cases 0 d) as [|Hlt]; [done|]. exfalso.
        assert (Z.quot d 1000000 <= 0); [|lia].
        rewrite <- (Z.opp_involutive d), Z.quot_opp_l by lia.
        pose proof (Z.quot_pos (- d) 1000000 ltac:(lia) ltac:(lia)). lia. }
      split; [lia|]. subst ms. rewrite Z.quot_div_nonneg by lia.
      apply Z.div_lt_upper_bound; [lia|]. unfold in_int64 in Hd. lia. }
    destruct (duration_unit "y" (1000 * 60 * 60 * 24 * 365) true (ms, ""))
      as [ms1 r1] eqn:H1.
    pose proof (duration_unit_pos "y" (1000 * 60 * 60 * 24 * 365) true ms ""
                  ltac:(lia) Hms) as [Hm1 Hr1].
    rewrite H1 in Hm1, Hr1.
    destruct (duration_unit "w" (1000 * 60 * 60 * 24 * 7) true (ms1, r1))
      as [ms2 r2] eqn:H2.
    pose proof (duration_unit_pos "w" (1000 * 60 * 60 * 24 * 7) true ms1 r1
                  ltac:(lia) Hm1) as [Hm2 Hr2].
    rewrite H2 in Hm2, Hr2.
    destruct (duration_unit "d" (1000 * 60 * 60 * 24) false (ms2, r2))
      as [ms3 r3] eqn:H3.
    pose proof (duration_unit_pos "d" (1000 * 60 * 60 * 24) false ms2 r2
                  ltac:(lia) Hm2) as [Hm3 Hr3].
    rewrite H3 in Hm3, Hr3.
    destruct (duration_unit "h" (1000 * 60 * 60) false (ms3, r3))
      as [ms4 r4] eqn:H4.
    pose proof (duration_unit_pos "h" (1000 * 60 * 60) false ms3 r3
                  ltac:(lia) Hm3) as [Hm4 Hr4].
    rewrite H4 in Hm4, Hr4.
    destruct (duration_unit "m" (1000 * 60) false (ms4, r4))
      as [ms5 r5] eqn:H5.
    pose proof (duration_unit_pos "m" (1000 * 60) false ms4 r4
                  ltac:(lia) Hm4) as [Hm5 Hr5].
    rewrite H5 in Hm5, Hr5.
    destruct (duration_unit "s" 1000 false (ms5, r5)) as [ms6 r6] eqn:H6.
    pose proof (duration_unit_pos "s" 1000 false ms5 r5 ltac:(lia) Hm5)
      as [Hm6 Hr6].
    rewrite H6 in Hm6, Hr6.
    pose proof (duration_unit_pos "ms" 1 false ms6 r6 ltac:(lia) Hm6)
      as [_ Hr7].
    simpl in *. lia.
Qed.

Lemma sample_suffix_fits (interval : Z) :
  Z.of_nat (String.length (panelSuffix sample_Duration_String interval)) <= 190.
Proof.
  unfold panelSuffix. rewrite length_append.
  pose proof (sample_Duration_String_length (wrap64 (interval * 1000000000))
                (wrap64_range _)).
  simpl. lia.
Qed.

(** The sample group name is returned for every interval and title, and
    never is longer than 190 bytes. *)
Lemma sample_groupName_returns (interval : Z) (dashboardTitle : string) :
  exists name,
    sample_groupName interval dashboardTitle = Returned name
    /\ Z.of_nat (String.length name) <= 190.
Proof.
  unfold sample_groupName, groupName.
  fold (panelSuffix sample_Duration_String interval).
  pose proof (sample_suffix_fits interval) as Hfit.
  set (sfx := panelSuffix sample_Duration_String interval) in *.
  unfold truncate.
  destruct (Z.gtb_spec (Z.of_nat (String.length dashboardTitle))
              (190 - Z.of_nat (String.length sfx))) as [Hlong|Hshort].
  - destruct (Z.ltb_spec (190 - Z.of_nat (String.length sfx)) 0); [lia|].
    eexists. split; [reflexivity|].
    rewrite length_append, length_substring_prefix; lia.
  - eexists. split; [reflexivity|]. rewrite length_append. lia.
Qed.

(** A query whose model is the literal [null] is no JSON object, and yet
    the repairer returns without an error: it is not so that an error is
    returned exactly when a query that is no expression has a model that
    is no JSON object. *)
Lemma null_model_is_no_error :
  ~ (forall data : list AlertQuery,
       (exists err w',
          sample_migrateAlertRuleQueries data sample_world = (Returned (Err err), w'))
       <-> Exists (fun d => DatasourceUID d <> "__expr__"
                            /\ is_json_object (Model d) = false) data).
Proof.
  intros Hclaim.
  destruct (Hclaim [null_query]) as [_ Hback].
  destruct Hback as (err & w' & Hrun).
  - apply Exists_cons_hd. by split.
  - vm_compute in Hrun. discriminate Hrun.
Qed.

Lemma migrateAlertRuleQueries_roundtrip_witness :
  exists out d',
    sample_migrateAlertRuleQueries [sample_query plain_query] sample_world
      = (Returned (Ok out), sample_world)
    /\ out !! 0%nat = Some d'
    /\ same_but_Model (sample_query plain_query) d'
    /\ json_equivalent (Model d') (Model (sample_query plain_query)).
Proof.
  set (r := sample_migrateAlertRuleQueries [sample_query plain_query] sample_world).
  assert (exists out, r = (Returned (Ok out), sample_world)) as [out Hrun]
    by (eexists; vm_compute; reflexivity).
  destruct (migrateAlertRuleQueries_roundtrip (E:=unit) "__expr__" "targetFull" "target"
              [sample_query plain_query] out 0 (sample_query plain_query)
              plain_query sample_world sample_world Hrun)
    as (d' & Hout & Hsame & Hequiv);
    [reflexivity|by vm_compute|reflexivity|by vm_compute|by vm_compute|by vm_compute|].
  exists out, d'. split; [exact Hrun|]. split; [exact Hout|].
  split; [exact Hsame|exact Hequiv].
Defined.

Lemma addLabelsAndAnnotations_keys_witness :
  exists lbls annotations w',
    addLabelsAndAnnotations (E:=unit)
      "__dashboardUid__" "__panelId__" "__alertId__" "message"
      "__legacy_use_channels__" (fun name => name) (fun _ => [])
      (fun tmpl e => (tmpl, e))
      (sample_alert "ok" "ok") "" [] sample_world
      = (Returned (lbls, annotations), w')
    /\ size annotations = 4%nat
    /\ annotations !! "__dashboardUid__" = Some ""
    /\ annotations !! "message" = Some "".
Proof.
  assert (NoDup ["__dashboardUid__"; "__panelId__"; "__alertId__"; "message"])
    as H by (apply (bool_decide_unpack _); by vm_compute).
  destruct (addLabelsAndAnnotations_keys (E:=unit)
              "__dashboardUid__" "__panelId__" "__alertId__" "message"
              "__legacy_use_channels__" (fun name => name) (fun _ => [])
              (fun tmpl e => (tmpl, e))
              (sample_alert "ok" "ok") "" [] sample_world H)
    as (lbls & annotations & w' & Hrun & _ & _ & Hsize & Hdash & _ & _ & Hmsg).
  by exists lbls, annotations, w'.
Defined.

(** An alert whose execution-error option is "keep_state", and whose
    conditions the translator cannot translate: [migrateAlert] returns
    the error, and no silence is asked for. *)
Lemma keep_state_without_silence :
  let run :=
    sample_migrateAlert translator_failing (sample_alert "ok" "keep_state")
      sample_info sample_world in
  (exists rawSettings parsedSettings,
     sample_Marshal_Settings ("ok", "keep_state") = Ok rawSettings
     /\ sample_Unmarshal_Settings rawSettings = Ok parsedSettings
     /\ ExecutionErrorState_ parsedSettings = "keep_state")
  /\ run.1 = Returned (Err (Wrapped "transform conditions"
                              (External "datasource not found")))
  /\ silence_requests (trace run.2) = [].
Proof.
  split; [|by vm_compute].
  do 2 eexists. split; [reflexivity|]. by split.
Qed.

(** The same alert, with conditions that translate: one error silence is
    asked for, for the rule that is returned, and no no-data silence. *)
Lemma keep_state_with_silence :
  let run :=
    sample_migrateAlert translator_ok (sample_alert "ok" "keep_state")
      sample_info sample_world in
  exists ar,
    run.1 = Returned (Ok ar)
    /\ silence_requests (trace run.2) = [(ErrorSilence, ar)]
    /\ rule_UID ar = "u1"
    /\ rule_Labels ar !! "rule_uid" = Some "u1"
    /\ rule_ExecErrState ar = ErrorErrState.
Proof. eexists. by vm_compute. Qed.

(** ** The further properties at sample inputs *)

(** An expression whose model is no JSON text at all. *)
Definition expression_query : AlertQuery :=
  {| RefID := "B"; QueryType := ""; RelativeTimeRange := (0, 0);
     DatasourceUID := "__expr__"; Model := Malformed "not json" |}.

(** A query that needs all three repairs. *)
Definition messy_query : list (string * value) :=
  [("hide", JBool true); ("instant", JBool true); ("range", JBool true);
   ("target", JString "raw"); ("targetFull", JString "expanded");
   ("datasource", JObject [("type", JString "prometheus")])].

(** A hidden query that is otherwise in the accepted shape. *)
Definition hidden_query : list (string * value) :=
  [("hide", JBool true); ("expr", JString "up")].

(** A query whose model is cut short. *)
Definition broken_query : AlertQuery :=
  {| RefID := "C"; QueryType := ""; RelativeTimeRange := (600, 0);
     DatasourceUID := "ds-uid"; Model := Malformed "{" |}.

Lemma sample_fields_apart : fields_apart "targetFull" "target".
Proof. by repeat split. Qed.

Lemma ruleAdjustInterval_idempotent_witness :
  in_int64 23 /\ ruleAdjustInterval (ruleAdjustInterval 23) = ruleAdjustInterval 23.
Proof.
  assert (in_int64 23) as H by (unfold in_int64; lia).
  split; [exact H|]. exact (ruleAdjustInterval_idempotent 23 H).
Defined.

Lemma ruleAdjustInterval_monotone_witness :
  ruleAdjustInterval 19 <= ruleAdjustInterval 23.
Proof.
  apply (ruleAdjustInterval_monotone 19 23); unfold in_int64; lia.
Defined.

Lemma fixGraphite_removes_expanded_witness :
  exists queryData',
    sample_fixGraphite (MkMap (members_to_map graphite_query)) sample_world
      = (Returned queryData', sample_world)
    /\ mget "targetFull" queryData' = None
    /\ sample_fixGraphite queryData' sample_world = (Returned queryData', sample_world).
Proof.
  destruct (fixGraphite_removes_expanded (E:=unit) "targetFull" "target"
              (MkMap (members_to_map graphite_query)) sample_world)
    as (queryData' & Hrun & Hgone & _ & Hagain); [done|].
  exists queryData'. split; [exact Hrun|]. split; [exact Hgone|]. apply Hagain.
Defined.

Lemma migrateAlertRuleQueries_keeps_expressions_witness :
  exists out w',
    sample_migrateAlertRuleQueries
      [expression_query; sample_query plain_query] sample_world
      = (Returned (Ok out), w')
    /\ out !! 0%nat = Some expression_query.
Proof.
  assert (exists out w',
    sample_migrateAlertRuleQueries
      [expression_query; sample_query plain_query] sample_world
      = (Returned (Ok out), w')) as (out & w' & Hrun)
    by (do 2 eexists; vm_compute; reflexivity).
  exists out, w'. split; [exact Hrun|].
  exact (migrateAlertRuleQueries_keeps_expressions (E:=unit)
           "__expr__" "targetFull" "target" _ out 0 expression_query
           sample_world w' Hrun eq_refl eq_refl).
Defined.

Lemma migrateAlertRuleQueries_output_shape_witness :
  exists out w' d' m,
    sample_migrateAlertRuleQueries [sample_query messy_query] sample_world
      = (Returned (Ok out), w')
    /\ out !! 0%nat = Some d'
    /\ Unmarshal_map (Model d') = Ok m
    /\ mget "hide" m = None
    /\ mget "targetFull" m = None
    /\ isBothPrometheus m = false.
Proof.
  assert (exists out w' d',
    sample_migrateAlertRuleQueries [sample_query messy_query] sample_world
      = (Returned (Ok out), w')
    /\ out !! 0%nat = Some d'
    /\ DatasourceUID d' <> "__expr__") as (out & w' & d' & Hrun & Hi & Hquery)
    by (do 3 eexists; vm_compute; repeat split; by intros [=]).
  destruct (migrateAlertRuleQueries_output_shape (E:=unit)
              "__expr__" "targetFull" "target" _ out 0 d' sample_world w'
              sample_fields_apart Hrun Hi Hquery) as (m & Hm & Hshape).
  destruct Hshape as (Hhide & Hfull & Hboth).
  exists out, w', d', m. split; [exact Hrun|]. split; [exact Hi|].
  split; [exact Hm|]. split; [exact Hhide|]. split; [exact Hfull|exact Hboth].
Defined.

Lemma migrateAlertRuleQueries_idempotent_witness :
  exists out w' w2,
    sample_migrateAlertRuleQueries [sample_query messy_query] sample_world
      = (Returned (Ok out), w')
    /\ sample_migrateAlertRuleQueries out sample_world = (Returned (Ok out), w2).
Proof.
  assert (exists out w',
    sample_migrateAlertRuleQueries [sample_query messy_query] sample_world
      = (Returned (Ok out), w')) as (out & w' & Hrun)
    by (do 2 eexists; vm_compute; reflexivity).
  destruct (migrateAlertRuleQueries_idempotent (E:=unit)
              "__expr__" "targetFull" "target" _ out sample_world w' sample_world
              sample_fields_apart Hrun) as (w2 & Hagain & _).
  exists out, w', w2. split; [exact Hrun|exact Hagain].
Defined.

Lemma migrateAlertRuleQueries_strips_hide_witness :
  exists out w' d' members',
    sample_migrateAlertRuleQueries [sample_query hidden_query] sample_world
      = (Returned (Ok out), w')
    /\ out !! 0%nat = Some d'
    /\ Model d' = Wellformed (JObject members')
    /\ members_to_map members' = delete "hide" (members_to_map hidden_query).
Proof.
  assert (exists out w',
    sample_migrateAlertRuleQueries [sample_query hidden_query] sample_world
      = (Returned (Ok out), w')) as (out & w' & Hrun)
    by (do 2 eexists; vm_compute; reflexivity).
  destruct (migrateAlertRuleQueries_strips_hide (E:=unit)
              "__expr__" "targetFull" "target" _ out 0 (sample_query hidden_query)
              hidden_query sample_world w' Hrun)
    as (d' & members' & Hi & Hmodel & Hmap);
    [reflexivity|by vm_compute|reflexivity|done|by vm_compute|by vm_compute|].
  exists out, w', d', members'. split; [exact Hrun|]. split; [exact Hi|].
  split; [exact Hmodel|exact Hmap].
Defined.

Lemma migrateAlertRuleQueries_null_model_witness :
  exists out w',
    sample_migrateAlertRuleQueries [null_query] sample_world
      = (Returned (Ok out), w')
    /\ out !! 0%nat = Some null_query.
Proof.
  assert (exists out w',
    sample_migrateAlertRuleQueries [null_query] sample_world
      = (Returned (Ok out), w')) as (out & w' & Hrun)
    by (do 2 eexists; vm_compute; reflexivity).
  exists out, w'. split; [exact Hrun|].
  exact (migrateAlertRuleQueries_null_model (E:=unit)
           "__expr__" "targetFull" "target" _ out 0 null_query
           sample_world w' Hrun eq_refl eq_refl).
Defined.

Lemma migrateAlertRuleQueries_first_error_witness :
  exists err w' before d after,
    sample_migrateAlertRuleQueries
      [sample_query plain_query; broken_query; null_query] sample_world
      = (Returned (Err err), w')
    /\ [sample_query plain_query; broken_query; null_query]
       = before ++ d :: after
    /\ Unmarshal_map (Model d) = Err err.
Proof.
  assert (exists err w',
    sample_migrateAlertRuleQueries
      [sample_query plain_query; broken_query; null_query] sample_world
      = (Returned (Err err), w')) as (err & w' & Hrun)
    by (do 2 eexists; vm_compute; reflexivity).
  destruct (migrateAlertRuleQueries_first_error (E:=unit)
              "__expr__" "targetFull" "target" _ sample_world w' err Hrun)
    as (before & d & after & Hsplit & _ & _ & Herr).
  exists err, w', before, d, after. split; [exact Hrun|].
  split; [exact Hsplit|exact Herr].
Defined.

Lemma addLabelsAndAnnotations_tags_witness :
  exists lbls annotations w',
    addLabelsAndAnnotations (E:=unit)
      "__dashboardUid__" "__panelId__" "__alertId__" "message"
      "__legacy_use_channels__" (fun name => "__contact_" +:+ name +:+ "__")
      (fun _ => [mkTag "team" "infra"; mkTag "severity" "high"])
      (fun tmpl e => (tmpl, e))
      (sample_alert "ok" "ok") "dash-1" [mkAlertNotification 1 "c1" "ops"]
      sample_world
      = (Returned (lbls, annotations), w')
    /\ lbls !! "severity" = Some "high".
Proof.
  apply (addLabelsAndAnnotations_tags (E:=unit)
           "__dashboardUid__" "__panelId__" "__alertId__" "message"
           "__legacy_use_channels__" (fun name => "__contact_" +:+ name +:+ "__")
           (fun _ => [mkTag "team" "infra"; mkTag "severity" "high"])
           (fun tmpl e => (tmpl, e))
           (sample_alert "ok" "ok") "dash-1" [mkAlertNotification 1 "c1" "ops"]
           sample_world (mkTag "severity" "high")).
  - right. by left.
  - apply (bool_decide_unpack _). by vm_compute.
  - done.
  - intros c [->|[]%elem_of_nil]%elem_of_cons. by vm_compute.
Defined.

Lemma migrateAlert_rule_fields_witness :
  exists ar w',
    sample_migrateAlert translator_ok (sample_alert "keep_state" "ok")
      sample_info sample_world = (Returned (Ok ar), w')
    /\ rule_Version ar = 1
    /\ rule_IntervalSeconds ar = 60
    /\ rule_IsPaused ar = false
    /\ rule_NamespaceUID ar = "folder-1".
Proof.
  assert (exists ar w',
    sample_migrateAlert translator_ok (sample_alert "keep_state" "ok")
      sample_info sample_world = (Returned (Ok ar), w')) as (ar & w' & Hrun)
    by (do 2 eexists; vm_compute; reflexivity).
  exists ar, w'. split; [exact Hrun|].
  unfold sample_migrateAlert in Hrun.
  apply migrateAlert_rule_fields in Hrun
    as (raw & ps & _ & _ & _ & _ & _ & Hfolder & _ & Hversion & _
        & Hinterval & _ & Hpaused & _).
  by rewrite Hversion, Hinterval, Hpaused, Hfolder.
Defined.

Lemma migrateAlert_rule_queries_witness :
  exists ar w',
    sample_migrateAlert translator_ok (sample_alert "keep_state" "ok")
      sample_info sample_world = (Returned (Ok ar), w')
    /\ rule_Condition ar = "B"
    /\ length (rule_Data ar) = 1%nat.
Proof.
  assert (exists ar w',
    sample_migrateAlert translator_ok (sample_alert "keep_state" "ok")
      sample_info sample_world = (Returned (Ok ar), w')) as (ar & w' & Hrun)
    by (do 2 eexists; vm_compute; reflexivity).
  exists ar, w'. split; [exact Hrun|].
  unfold sample_migrateAlert in Hrun.
  apply migrateAlert_rule_queries in Hrun
    as (raw & ps & cond & _ & _ & Hcond & Hcondition & Hdata).
  injection Hcond as <-. split; [exact Hcondition|].
  by rewrite <- (Forall2_length _ _ _ Hdata).
Defined.

Lemma migrateAlert_rule_marks_witness :
  exists ar w',
    sample_migrateAlert translator_ok (sample_alert "keep_state" "ok")
      sample_info sample_world = (Returned (Ok ar), w')
    /\ dom (rule_Annotations ar)
       = {["__dashboardUid__"; "__panelId__"; "__alertId__"; "message"]}
    /\ rule_Labels ar !! "__legacy_use_channels__" = Some "true".
Proof.
  assert (exists ar w',
    sample_migrateAlert translator_ok (sample_alert "keep_state" "ok")
      sample_info sample_world = (Returned (Ok ar), w')) as (ar & w' & Hrun)
    by (do 2 eexists; vm_compute; reflexivity).
  exists ar, w'. split; [exact Hrun|].
  unfold sample_migrateAlert in Hrun.
  apply migrateAlert_rule_marks in Hrun as [Hdom Hmarker].
  split; [exact Hdom|]. apply Hmarker. done.
Defined.

Lemma migrateAlert_error_stage_witness :
  exists err w',
    sample_migrateAlert translator_failing (sample_alert "ok" "keep_state")
      sample_info sample_world = (Returned (Err err), w')
    /\ err = Wrapped "transform conditions" (External "datasource not found").
Proof.
  assert (exists err w',
    sample_migrateAlert translator_failing (sample_alert "ok" "keep_state")
      sample_info sample_world = (Returned (Err err), w')) as (err & w' & Hrun)
    by (do 2 eexists; vm_compute; reflexivity).
  exists err, w'. split; [exact Hrun|].
  unfold sample_migrateAlert in Hrun.
  pose proof Hrun as Hstage.
  apply migrateAlert_error_stage in Hstage
    as [(e & He & _)|[(raw & e & Hraw & He & _)
        |[(raw & ps & e & _ & _ & He & ->)
        |[(raw & ps & cond & e & w3 & w4 & before & d & after
           & _ & _ & _ & _ & _ & _ & _ & _ & ->)
        |(raw & ps & cond & data & w3 & w4 & _ & _ & _ & _ & He)]]]].
  - discriminate He.
  - injection Hraw as <-. discriminate He.
  - by injection He as <-.
  - vm_compute in Hrun. discriminate Hrun.
  - discriminate He.
Defined.

Lemma migrateAlert_returns_witness :
  exists r w',
    sample_migrateAlert translator_ok (sample_alert "keep_state" "keep_state")
      sample_info sample_world = (Returned r, w').
Proof.
  apply migrateAlert_returns. by vm_compute.
Defined.

Lemma migrateAlert_silences_iff_keep_state_witness :
  exists ar w',
    sample_migrateAlert translator_ok (sample_alert "ok" "keep_state")
      sample_info sample_world = (Returned (Ok ar), w')
    /\ silence_requests (trace w') = [(ErrorSilence, ar)]
    /\ rule_UID ar = "u1"
    /\ rule_Labels ar !! "rule_uid" = Some (rule_UID ar).
Proof.
  assert (exists ar w',
    sample_migrateAlert translator_ok (sample_alert "ok" "keep_state")
      sample_info sample_world = (Returned (Ok ar), w')) as (ar & w' & Hrun)
    by (do 2 eexists; vm_compute; reflexivity).
  exists ar, w'. split; [exact Hrun|].
  unfold sample_migrateAlert in Hrun.
  apply migrateAlert_silences_iff_keep_state in Hrun
    as (raw & ps & e & new & Hraw & Hps & Hreq & Hnew & _ & _ & _ & _
        & Huid & Hlabel).
  injection Hraw as <-. injection Hps as <-.
  split; [|split; [exact Huid|exact Hlabel]].
  rewrite Hreq, Hnew. reflexivity.
Defined.
